(** * GraphRAG accelerator front-end: shallow embedding and verified properties

    The development embeds [frontend/components/functions.py] and the
    container-name parser of [frontend/components/index_pipeline.py].
    The Python code talks to three outside parties: Streamlit (session state,
    error display, the data cache), the [requests] HTTP client and the local
    file system.  Each of them is a component of an explicit [world] that the
    embedded functions thread through a state-and-exception monad [M]. *)

From stdpp Require Import base option list gmap strings.
From Stdlib Require Import ZArith Ascii String Lia.

Set Warnings "-register-all".

Local Open Scope string_scope.
Local Open Scope list_scope.
Local Open Scope Z_scope.

(** ** Python values

    The values the front-end handles are the ones [response.json()] can
    return, together with [None]: that is what the wrappers hand to the
    option builders. A dict keeps its items in insertion order; JSON object
    keys are strings. *)

Inductive pyval : Type :=
  | PNone
  | PBool (b : bool)
  | PInt (n : Z)
  | PFloat (bits : Z)
  | PStr (s : string)
  | PList (items : list pyval)
  | PDict (items : list (string * pyval)).

(** ** Exceptions

    Every class below derives from Python's [Exception], so a handler
    [except Exception] catches each of them. *)

Inductive exn : Type :=
  | KeyError (key : string)
  | TypeError
  | IndexError
  | JSONDecodeError
  | RequestException (detail : string)
  | HTTPError (status : Z)
  | BadZipFile
  | FileNotFoundError (path : list string)
  | IsADirectoryError (path : list string)
  | NotADirectoryError (path : list string)
  | UnicodeDecodeError
  | ZlibError
  | NotImplementedError
  | RuntimeError.

Inductive result (A : Type) : Type :=
  | Ok (a : A)
  | Raise (e : exn).
Arguments Ok {A} a.
Arguments Raise {A} e.

(** ** Formatted messages

    An f-string is kept as its pieces: the literal text and the values
    formatted into it. *)

Inductive fpart : Type :=
  | Lit (s : string)
  | FInt (n : Z)
  | FVal (v : pyval)
  | FExn (e : exn).

Definition message := list fpart.

Definition newline : string := String (ascii_of_nat 10) EmptyString.

(** ** Primitive operations on values *)

Fixpoint dict_get (k : string) (d : list (string * pyval)) : option pyval :=
  match d with
  | [] => None
  | (k', v) :: d' => if String.eqb k k' then Some v else dict_get k d'
  end.

(** [v[k]] for a string key [k]: only a dict accepts it. *)
Definition getitem (v : pyval) (k : string) : result pyval :=
  match v with
  | PDict d =>
      match dict_get k d with
      | Some x => Ok x
      | None => Raise (KeyError k)
      end
  | _ => Raise TypeError
  end.

(** [l + v] for a list [l]: [list.__add__] accepts a list only. *)
Definition list_add (l : list pyval) (v : pyval) : result (list pyval) :=
  match v with
  | PList l' => Ok (l ++ l')
  | _ => Raise TypeError
  end.

(** [l[0]] *)
Definition index0 {A} (l : list A) : result A :=
  match l with
  | x :: _ => Ok x
  | [] => Raise IndexError
  end.

(** [str.lower] on the ASCII range. *)
Definition lower_ascii (c : ascii) : ascii :=
  let n := nat_of_ascii c in
  if (Nat.leb 65 n && Nat.leb n 90)%bool then ascii_of_nat (n + 32) else c.

Fixpoint lower (s : string) : string :=
  match s with
  | EmptyString => EmptyString
  | String c s' => String (lower_ascii c) (lower s')
  end.

(** [str.startswith] and [str.endswith]. *)
Fixpoint startswith (s p : string) : bool :=
  match p, s with
  | EmptyString, _ => true
  | String _ _, EmptyString => false
  | String a p', String b s' => Ascii.eqb a b && startswith s' p'
  end.

Fixpoint rev_string (s acc : string) : string :=
  match s with
  | EmptyString => acc
  | String c s' => rev_string s' (String c acc)
  end.

Definition endswith (s p : string) : bool :=
  startswith (rev_string s EmptyString) (rev_string p EmptyString).

(** ** Text files

    A file opened with mode ["r"] is decoded and its line endings are
    translated. The encoding is that of the locale, taken to be UTF-8, with
    strict error handling; a decoded text is kept as its UTF-8 bytes. *)

Definition in_range (c : ascii) (lo hi : N) : bool :=
  (N.leb lo (N_of_ascii c) && N.leb (N_of_ascii c) hi)%bool.

(** A continuation byte, [10xxxxxx]. *)
Definition continuation (c : ascii) : bool := in_range c 128 191.

(** The well-formed byte sequences of UTF-8: no overlong form, no
    surrogate, nothing above U+10FFFF. *)
Fixpoint utf8_valid (s : string) : bool :=
  match s with
  | EmptyString => true
  | String a s1 =>
      if in_range a 0 127 then utf8_valid s1
      else if in_range a 194 223 then
        match s1 with
        | String b s2 => continuation b && utf8_valid s2
        | _ => false
        end
      else if in_range a 224 239 then
        match s1 with
        | String b (String c s3) =>
            (if in_range a 224 224 then in_range b 160 191
             else if in_range a 237 237 then in_range b 128 159
             else continuation b)
            && continuation c && utf8_valid s3
        | _ => false
        end
      else if in_range a 240 244 then
        match s1 with
        | String b (String c (String d s4)) =>
            (if in_range a 240 240 then in_range b 144 191
             else if in_range a 244 244 then in_range b 128 143
             else continuation b)
            && continuation c && continuation d && utf8_valid s4
        | _ => false
        end
      else false
  end.

Definition CR : ascii := ascii_of_nat 13.
Definition LF : ascii := ascii_of_nat 10.

(** Universal newlines: CR LF and a lone CR are read as LF. *)
Fixpoint universal_newlines (s : string) : string :=
  match s with
  | EmptyString => EmptyString
  | String c s1 =>
      if Ascii.eqb c CR then
        String LF
          match s1 with
          | String d s2 =>
              if Ascii.eqb d LF then universal_newlines s2 else universal_newlines s1
          | EmptyString => EmptyString
          end
      else String c (universal_newlines s1)
  end.

(** [f.read()] on a file opened with mode ["r"] that holds [data]. *)
Definition read_text (data : string) : result string :=
  if utf8_valid data then Ok (universal_newlines data) else Raise UnicodeDecodeError.

(** ** The file system

    A tree rooted at the process's working directory, without symbolic
    links. A directory keeps its entries in the order in which the operating
    system lists them. File data is a byte string; what a text-mode read
    makes of it is [read_text]. *)

Module FS.

Inductive node : Type :=
  | File (data : string)
  | Dir (entries : list (string * node)).

Fixpoint child (c : string) (es : list (string * node)) : option node :=
  match es with
  | [] => None
  | (c', n) :: es' => if String.eqb c c' then Some n else child c es'
  end.

(** Replace the entry named [c] where it stands, or add it at the end. *)
Fixpoint set_child (c : string) (n : node) (es : list (string * node))
  : list (string * node) :=
  match es with
  | [] => [(c, n)]
  | (c', n') :: es' =>
      if String.eqb c c' then (c, n) :: es' else (c', n') :: set_child c n es'
  end.

(** Paths are lists of components. [split_slash] cuts a path string at
    every slash. *)
Fixpoint split_slash (s : string) : list string :=
  match s with
  | EmptyString => [EmptyString]
  | String c s' =>
      if Ascii.eqb c "/" then EmptyString :: split_slash s'
      else match split_slash s' with
           | [] => [String c EmptyString]
           | h :: t => String c h :: t
           end
  end.

Definition push_component (acc : list string) (c : string) : list string :=
  if String.eqb c "" || String.eqb c "." then acc
  else if String.eqb c ".." then removelast acc
  else acc ++ [c].

(** The components a path string denotes from the working directory,
    which is also the root of the tree. *)
Definition resolve (s : string) : list string :=
  fold_left push_component (split_slash s) [].

(** The last component, [Path.name]. *)
Definition name (p : list string) : string := List.last p "".

Fixpoint walk (whole p : list string) (n : node) : result node :=
  match p with
  | [] => Ok n
  | c :: p' =>
      match n with
      | File _ => Raise (NotADirectoryError whole)
      | Dir es =>
          match child c es with
          | Some n' => walk whole p' n'
          | None => Raise (FileNotFoundError whole)
          end
      end
  end.

(** [Path.iterdir]: the paths of the entries, in listing order. *)
Definition iterdir (p : list string) (root : node) : result (list (list string)) :=
  match walk p p root with
  | Ok (Dir es) => Ok (map (fun e => p ++ [fst e]) es)
  | Ok (File _) => Raise (NotADirectoryError p)
  | Raise e => Raise e
  end.

(** The bytes of the file at [p], with the errors of [open(p)]. *)
Definition read (p : list string) (root : node) : result string :=
  match walk p p root with
  | Ok (File data) => Ok data
  | Ok (Dir _) => Raise (IsADirectoryError p)
  | Raise e => Raise e
  end.

(** The file at [p] is created or replaced, holding [data]; the parent
    directories must exist. *)
Fixpoint put (whole p : list string) (data : string) (n : node) : result node :=
  match n with
  | File _ => Raise (NotADirectoryError whole)
  | Dir es =>
      match p with
      | [] => Raise (IsADirectoryError whole)
      | c :: p' =>
          match p' with
          | [] =>
              match child c es with
              | Some (Dir _) => Raise (IsADirectoryError whole)
              | _ => Ok (Dir (set_child c (File data) es))
              end
          | _ :: _ =>
              match child c es with
              | Some n' =>
                  match put whole p' data n' with
                  | Ok n'' => Ok (Dir (set_child c n'' es))
                  | Raise e => Raise e
                  end
              | None => Raise (FileNotFoundError whole)
              end
          end
      end
  end.

(** [os.makedirs(p, exist_ok=True)]: every missing directory along [p]
    is created. *)
Fixpoint makedirs (whole p : list string) (n : node) : result node :=
  match n with
  | File _ => Raise (NotADirectoryError whole)
  | Dir es =>
      match p with
      | [] => Ok n
      | c :: p' =>
          match makedirs whole p' (default (Dir []) (child c es)) with
          | Ok n' => Ok (Dir (set_child c n' es))
          | Raise e => Raise e
          end
      end
  end.

End FS.

(** ** HTTP, as [requests] presents it *)

Definition headers := list (string * string).

Inductive http_method : Type := GET | POST.

Record request : Type := Request {
  req_method : http_method;
  req_url : string;
  req_params : list (string * pyval);
  req_headers : headers;
  req_json : option pyval;
  req_files : option (list (string * string));
  req_stream : bool
}.

(** A response carries its status, what [response.json()] returns or
    raises, and what [iter_content] yields: the chunks of the body, and the
    transport failure that ends the stream early, if any. *)
Record response : Type := Response {
  status_code : Z;
  json_ : result pyval;
  chunks : list string;
  stream_error : option exn
}.

Inductive outcome : Type :=
  | Responds (r : response)
  | Fails (e : exn).

(** ** The world *)

Record world : Type := World {
  session_state : gmap string pyval;
  st_errors : list message;
  stdout : list message;
  fs : FS.node;
  sent : list request;
  net : list request -> request -> outcome;
  data_cache : list ((string * headers) * (pyval * list message))
}.

Definition set_session_state (f : gmap string pyval -> gmap string pyval) (w : world) : world :=
  World (f (session_state w)) (st_errors w) (stdout w) (fs w) (sent w) (net w) (data_cache w).
Definition set_st_errors (f : list message -> list message) (w : world) : world :=
  World (session_state w) (f (st_errors w)) (stdout w) (fs w) (sent w) (net w) (data_cache w).
Definition set_stdout (f : list message -> list message) (w : world) : world :=
  World (session_state w) (st_errors w) (f (stdout w)) (fs w) (sent w) (net w) (data_cache w).
Definition set_fs (root : FS.node) (w : world) : world :=
  World (session_state w) (st_errors w) (stdout w) root (sent w) (net w) (data_cache w).
Definition set_sent (f : list request -> list request) (w : world) : world :=
  World (session_state w) (st_errors w) (stdout w) (fs w) (f (sent w)) (net w) (data_cache w).
Definition set_data_cache
  (f : list ((string * headers) * (pyval * list message)) ->
       list ((string * headers) * (pyval * list message))) (w : world) : world :=
  World (session_state w) (st_errors w) (stdout w) (fs w) (sent w) (net w) (f (data_cache w)).

(** ** The monad: state and exceptions

    A raised exception leaves the effects made before it in place, as in
    Python. *)

Definition M (A : Type) : Type := world -> result A * world.

#[export] Instance M_ret : MRet M := fun A a w => (Ok a, w).

#[export] Instance M_bind : MBind M := fun A B k m w =>
  match m w with
  | (Ok a, w') => k a w'
  | (Raise e, w') => (Raise e, w')
  end.

Definition raise {A} (e : exn) : M A := fun w => (Raise e, w).

Definition lift {A} (r : result A) : M A := fun w => (r, w).

(** [try: body  except Exception as e: handler e] *)
Definition try_except {A} (body : M A) (handler : exn -> M A) : M A := fun w =>
  match body w with
  | (Ok a, w') => (Ok a, w')
  | (Raise e, w') => handler e w'
  end.

(** [for x in l: body x] *)
Fixpoint for_each {A} (l : list A) (body : A -> M unit) : M unit :=
  match l with
  | [] => mret tt
  | x :: l' => body x ;; for_each l' body
  end.

(** [[f x for x in l]] *)
Fixpoint comprehension {A B} (f : A -> M B) (l : list A) : M (list B) :=
  match l with
  | [] => mret []
  | x :: l' => y ← f x; ys ← comprehension f l'; mret (y :: ys)
  end.

Definition returned {A} (m : M A) (w : world) : result A := fst (m w).
Definition after {A} (m : M A) (w : world) : world := snd (m w).

(** ** Primitive effects *)

Definition st_error (msg : message) : M unit := fun w =>
  (Ok tt, set_st_errors (fun l => l ++ [msg]) w).

Definition print (msg : message) : M unit := fun w =>
  (Ok tt, set_stdout (fun l => l ++ [msg]) w).

Definition requests_send (rq : request) : M response := fun w =>
  let w' := set_sent (fun l => l ++ [rq]) w in
  match net w (sent w) rq with
  | Responds r => (Ok r, w')
  | Fails e => (Raise e, w')
  end.

Definition requests_get (url : string) (params : list (string * pyval))
  (hdrs : headers) (stream : bool) : M response :=
  requests_send (Request GET url params hdrs None None stream).

Definition requests_post (url : string) (params : list (string * pyval))
  (hdrs : headers) (json : option pyval) (files : option (list (string * string)))
  : M response :=
  requests_send (Request POST url params hdrs json files false).

(** [Response.raise_for_status]: an [HTTPError] for a client error (4xx)
    or a server error (5xx) status, nothing otherwise. *)
Definition raise_for_status (r : response) : M unit :=
  if (400 <=? status_code r) && (status_code r <? 600)
  then raise (HTTPError (status_code r))
  else mret tt.

Definition fs_iterdir (p : list string) : M (list (list string)) := fun w =>
  (FS.iterdir p (fs w), w).

Definition fs_read (p : list string) : M string := fun w =>
  (FS.read p (fs w), w).

Definition fs_update (f : FS.node -> result FS.node) : M unit := fun w =>
  match f (fs w) with
  | Ok root => (Ok tt, set_fs root w)
  | Raise e => (Raise e, w)
  end.

(** [open(p, "wb")]: the file is created, or emptied. *)
Definition open_wb (p : list string) : M (list string) :=
  fs_update (FS.put p p "") ;; mret p.

(** [f.write(chunk)] on a file opened for writing at [p]. *)
Definition write (p : list string) (chunk : string) : M unit :=
  old ← fs_read p; fs_update (FS.put p p (old +:+ chunk)).

(** [st.cache_data]: calls are memoised by their arguments. A hit returns
    the stored value and replays the messages the stored call displayed; a
    miss runs the function and stores both. *)
Fixpoint cache_lookup (k : string * headers)
  (c : list ((string * headers) * (pyval * list message))) : option (pyval * list message) :=
  match c with
  | [] => None
  | (k', v) :: c' => if bool_decide (k = k') then Some v else cache_lookup k c'
  end.

Definition cache_data (k : string * headers) (body : M pyval) : M pyval := fun w =>
  match cache_lookup k (data_cache w) with
  | Some (v, msgs) => (Ok v, set_st_errors (fun l => l ++ msgs) w)
  | None =>
      match body w with
      | (Ok v, w') =>
          let msgs := drop (List.length (st_errors w)) (st_errors w') in
          (Ok v, set_data_cache (fun c => c ++ [(k, (v, msgs))]) w')
      | (Raise e, w') => (Raise e, w')
      end
  end.

(** * The embedded functions of [functions.py] *)

(** ** HTTP wrappers *)

Definition get_storage_container_names (api_url : string) (hdrs : headers) : M pyval :=
  try_except
    (response ← requests_get (api_url +:+ "/data") [] hdrs false;
     if status_code response =? 200 then lift (json_ response)
     else (st_error [Lit "Error: "; FInt (status_code response)] ;; mret PNone))
    (fun e => st_error [Lit "Error: "; FExn e] ;; mret PNone).

Definition get_entity_data (api_url : string) (hdrs : headers) : M pyval :=
  try_except
    (response ← requests_get (api_url +:+ "/index/config/entity") [] hdrs false;
     if status_code response =? 200 then lift (json_ response)
     else (st_error [Lit "Error: "; FInt (status_code response)] ;; mret PNone))
    (fun e => st_error [Lit "Error: "; FExn e] ;; mret PNone).

(** The function under its [@st.cache_data] decorator. *)
Definition get_indexes_data_body (api_url : string) (hdrs : headers) : M pyval :=
  try_except
    (response ← requests_get (api_url +:+ "/index") [] hdrs false;
     if status_code response =? 200 then lift (json_ response)
     else (st_error [Lit "Error: "; FInt (status_code response)] ;; mret PNone))
    (fun e => st_error [Lit "Error: "; FExn e] ;; mret PNone).

Definition get_indexes_data (api_url : string) (hdrs : headers) : M pyval :=
  cache_data (api_url, hdrs) (get_indexes_data_body api_url hdrs).

(** A prompt argument of [build_index]: [None], a path, or a [StringIO]. *)
Inductive prompt_source : Type :=
  | NoPrompt
  | PromptPath (p : string)
  | PromptStringIO (text : string).

(** One [if filepath: prompt_files[key] = ...] step. [None] and the empty
    path are falsy; a path is opened for reading, a buffer is taken as it
    is. The entry holds the text the file object delivers. *)
Definition attach_prompt (key : string) (src : prompt_source)
  (prompt_files : list (string * string)) : M (list (string * string)) :=
  match src with
  | NoPrompt => mret prompt_files
  | PromptPath p =>
      if String.eqb p "" then mret prompt_files
      else (f ← fs_read (FS.resolve p); mret (prompt_files ++ [(key, f)]))
  | PromptStringIO text => mret (prompt_files ++ [(key, text)])
  end.

Definition build_index (api_url : string) (hdrs : headers)
  (storage_name index_name : string)
  (entity_extraction_prompt_filepath community_prompt_filepath
   summarize_description_prompt_filepath : prompt_source) : M response :=
  let url := api_url +:+ "/index" in
  let prompt_files := [] in
  prompt_files ← attach_prompt "entity_extraction_prompt"
                   entity_extraction_prompt_filepath prompt_files;
  prompt_files ← attach_prompt "community_report_prompt"
                   community_prompt_filepath prompt_files;
  prompt_files ← attach_prompt "summarize_descriptions_prompt"
                   summarize_description_prompt_filepath prompt_files;
  requests_post url
    [("index_name", PStr index_name); ("storage_name", PStr storage_name)]
    hdrs None
    (if Nat.ltb 0 (List.length prompt_files) then Some prompt_files else None).

(** The body of the coroutine, as it runs when awaited. *)
Definition query_index (index_name : list string) (query_type query api_url : string)
  (hdrs : headers) : M pyval :=
  try_except
    (let request := PDict [("index_name", PList (map PStr index_name));
                           ("query", PStr query);
                           ("reformat_context_data", PBool true)] in
     response ← requests_post (api_url +:+ "/query/" +:+ lower query_type) []
                  hdrs (Some request) None;
     if status_code response =? 200 then lift (json_ response)
     else (body ← lift (json_ response);
           st_error [Lit "Error: "; FInt (status_code response); Lit " "; FVal body] ;;
           mret PNone))
    (fun e => st_error [Lit "Error: "; FExn e] ;; mret PNone).

Definition get_source_entity (index_name entity_id api_url : string) (hdrs : headers)
  : M pyval :=
  try_except
    (response ← requests_get
                  (api_url +:+ "/source/entity/" +:+ index_name +:+ "/" +:+ entity_id)
                  [] hdrs false;
     if status_code response =? 200 then lift (json_ response)
     else (body ← lift (json_ response);
           st_error [Lit "Error: "; FInt (status_code response); Lit " "; FVal body] ;;
           mret PNone))
    (fun e => st_error [Lit "Error: "; FExn e] ;; mret PNone).

(** ** Option lists *)

Definition show_index_options (indexes : pyval) : M (list pyval) :=
  let options_indexes := [PStr ""] in
  try_except
    (v ← lift (getitem indexes "index_name");
     lift (list_add options_indexes v))
    (fun e => print [Lit "No indexes found, continuing..."; Lit newline;
                     Lit "Exception: "; FExn e] ;;
              mret options_indexes).

(** ** Prompt bundle *)

Definition _generate_prompts (api_url : string) (hdrs : headers)
  (storage_name zip_file_name : string) (limit : Z) : M unit :=
  let url := api_url +:+ "/index/config/prompts" in
  let params := [("storage_name", PStr storage_name); ("limit", PInt limit)] in
  r ← requests_get url params hdrs true;
  raise_for_status r ;;
  f ← open_wb (FS.resolve zip_file_name);
  for_each (chunks r) (fun chunk => write f chunk) ;;
  match stream_error r with
  | Some e => raise e
  | None => mret tt
  end.

(** [ZipFile.extractall] writes each member below the working directory:
    the empty, [.] and [..] components of its name are dropped, the missing
    directories above it are created, and a name ending in a slash is a
    directory. *)
Definition zip_target (member_name : string) : list string :=
  List.filter
    (fun c => negb (String.eqb c "" || String.eqb c "." || String.eqb c ".."))
    (FS.split_slash member_name).

(** What [ZipFile] delivers for a member: its data; or, for a damaged
    member, the part that comes out before the error is raised (a bad CRC, a
    broken compressed stream); or nothing, for a member that cannot be opened
    (a bad header, an unsupported compression method, a missing password).
    [ZipFile.open] comes before the target is opened for writing. *)
Inductive member_data : Type :=
  | Stored (data : string)
  | Damaged (written : string) (e : exn)
  | Unopenable (e : exn).

Definition extract_member (member : string * member_data) : M unit :=
  let target := zip_target (fst member) in
  fs_update (FS.makedirs target (removelast target)) ;;
  if endswith (fst member) "/" then fs_update (FS.makedirs target target)
  else
    match snd member with
    | Stored data => fs_update (FS.put target target data)
    | Damaged written e => fs_update (FS.put target target written) ;; raise e
    | Unopenable e => raise e
    end.

(** [open(file_path, "r")], then [f.read()]: the file is read in text
    mode. *)
Definition open_file (file_path : list string) : M string :=
  data ← fs_read file_path;
  lift (read_text data).

Definition get_prompts (prompt_dir : string) : M (string * string * string) :=
  entries ← fs_iterdir (FS.resolve prompt_dir);
  let prompt_paths :=
    List.filter (fun prompt => endswith (FS.name prompt) ".txt") entries in
  summ_prompt ←
    (l ← comprehension open_file
           (List.filter (fun path => startswith (FS.name path) "summ") prompt_paths);
     lift (index0 l));
  entity_ext_prompt ←
    (l ← comprehension open_file
           (List.filter (fun path => startswith (FS.name path) "entity") prompt_paths);
     lift (index0 l));
  comm_report_prompt ←
    (l ← comprehension open_file
           (List.filter (fun path => startswith (FS.name path) "community") prompt_paths);
     lift (index0 l));
  mret (summ_prompt, entity_ext_prompt, comm_report_prompt).

Section Zip.

(** What [ZipFile] makes of the bytes of a file: the members (name and
    what reading the member delivers, in archive order) of an archive with
    a central directory, nothing for bytes that have none. *)
Variable zip_decode : string -> option (list (string * member_data)).

Definition _extract_prompts_from_zip (zip_file_name : string) : M unit :=
  data ← fs_read (FS.resolve zip_file_name);
  match zip_decode data with
  | None => raise BadZipFile
  | Some members => for_each members extract_member
  end.

Definition generate_and_extract_prompts (api_url : string) (hdrs : headers)
  (storage_name zip_file_name : string) (limit : Z) : M unit :=
  _generate_prompts api_url hdrs storage_name zip_file_name limit ;;
  _extract_prompts_from_zip zip_file_name.

End Zip.

(** ** Session state *)

Section SessionState.

(** The enumeration [PromptKeys] of [prompt_enum.py]: the values of its
    members in definition order, and the values of the three members the
    code names. *)
Variable PromptKeys : list string.
Variables SUMMARY ENTITY COMMUNITY : string.

Definition init_key (value : string) : M unit := fun w =>
  match session_state w !! value with
  | Some _ => (Ok tt, w)
  | None => (Ok tt, set_session_state (insert value (PStr "")) w)
  end.

Definition set_session_state_variables : M unit :=
  for_each PromptKeys init_key ;;
  init_key "build_index_name".

Definition store (key : string) (v : pyval) : M unit := fun w =>
  (Ok tt, set_session_state (insert key v) w).

Definition optional_str (o : option string) : pyval :=
  match o with
  | Some s => PStr s
  | None => PNone
  end.

Definition update_session_state_prompt_vars
  (summarize entity_extract community : option string)
  (initial_setting : bool) (prompt_dir : string) : M unit :=
  '(summarize, entity_extract, community) ←
    (if initial_setting then
       '(s, e, c) ← get_prompts prompt_dir;
       mret (Some s, Some e, Some c)
     else mret (summarize, entity_extract, community));
  store SUMMARY (optional_str summarize) ;;
  store ENTITY (optional_str entity_extract) ;;
  store COMMUNITY (optional_str community).

End SessionState.

(** * [index_pipeline.py] *)

Module IndexPipeline.

Record t : Type := Build {
  containers : pyval;
  api_url : string;
  headers_ : headers;
  upload_headers : headers
}.

Definition _parse_container_names (self : t) : M (list pyval) :=
  let container_names := [PStr ""] in
  try_except
    (v ← lift (getitem (containers self) "storage_name");
     lift (list_add container_names v))
    (fun e => print [Lit "No data containers found, continuing..."; Lit newline;
                     Lit "Exception: "; FExn e] ;;
              mret container_names).

End IndexPipeline.

(** * A sample world

    Nothing stored, nothing displayed, an empty working directory, and a
    network on which every request fails to connect. *)

Definition offline : list request -> request -> outcome :=
  fun _ _ => Fails (RequestException "connection refused").

Definition world0 : world :=
  World ∅ [] [] (FS.Dir []) [] offline [].

(** The list call reported no container: the response is a JSON object
    whose [storage_name] entry is the empty list, or is missing. *)
Definition zero_containers (c : pyval) : Prop :=
  exists d, c = PDict d /\
    (dict_get "storage_name" d = Some (PList []) \/ dict_get "storage_name" d = None).

(** The request a query is expected to send. *)
Definition query_request (index_name : list string) (query_type query api_url : string)
  (hdrs : headers) : request :=
  Request POST (api_url +:+ "/query/" +:+ lower query_type) [] hdrs
    (Some (PDict [("index_name", PList (map PStr index_name));
                  ("query", PStr query);
                  ("reformat_context_data", PBool true)]))
    None false.

(** The keys that initialisation creates: the prompt keys and the name of
    the index being built. *)
Definition fixed_keys (PromptKeys : list string) : list string :=
  PromptKeys ++ ["build_index_name"].

(** What [init_key] does to the session state. *)
Definition init_pure (value : string) (s : gmap string pyval) : gmap string pyval :=
  match s !! value with
  | Some _ => s
  | None => <[value := PStr ""]> s
  end.

(** The entries of a directory that [get_prompts] opens for a prefix: the
    ones whose name ends in [.txt] and starts with the prefix, in listing
    order. *)
Definition is_prompt (prefix : string) (n : string) : bool :=
  endswith n ".txt" && startswith n prefix.

Definition txt_matches (prefix : string) (es : list (string * FS.node))
  : list (string * FS.node) :=
  List.filter (fun e => is_prompt prefix (fst e)) es.



(** A directory in which two files match the prefix [summ]. *)
Definition two_summaries : list (string * FS.node) :=
  [("summarize_a.txt", FS.File "first summary");
   ("entity_extraction.txt", FS.File "entities");
   ("summarize_b.txt", FS.File "second summary");
   ("community_report.txt", FS.File "communities")].

Definition two_summaries_world : world :=
  set_fs (FS.Dir [("prompts", FS.Dir two_summaries)]) world0.

(** ** The wrappers, as one family *)

Inductive wrapper_call : Type :=
  | StorageContainerNames (api_url : string) (hdrs : headers)
  | EntityData (api_url : string) (hdrs : headers)
  | IndexesData (api_url : string) (hdrs : headers)
  | QueryIndex (index_name : list string) (query_type query api_url : string)
      (hdrs : headers)
  | SourceEntity (index_name entity_id api_url : string) (hdrs : headers).

Definition call (c : wrapper_call) : M pyval :=
  match c with
  | StorageContainerNames api_url hdrs => get_storage_container_names api_url hdrs
  | EntityData api_url hdrs => get_entity_data api_url hdrs
  | IndexesData api_url hdrs => get_indexes_data api_url hdrs
  | QueryIndex index_name query_type query api_url hdrs =>
      query_index index_name query_type query api_url hdrs
  | SourceEntity index_name entity_id api_url hdrs =>
      get_source_entity index_name entity_id api_url hdrs
  end.

(** The request each wrapper sends. *)
Definition request_of (c : wrapper_call) : request :=
  match c with
  | StorageContainerNames api_url hdrs =>
      Request GET (api_url +:+ "/data") [] hdrs None None false
  | EntityData api_url hdrs =>
      Request GET (api_url +:+ "/index/config/entity") [] hdrs None None false
  | IndexesData api_url hdrs =>
      Request GET (api_url +:+ "/index") [] hdrs None None false
  | QueryIndex index_name query_type query api_url hdrs =>
      query_request index_name query_type query api_url hdrs
  | SourceEntity index_name entity_id api_url hdrs =>
      Request GET (api_url +:+ "/source/entity/" +:+ index_name +:+ "/" +:+ entity_id)
        [] hdrs None None false
  end.

(** The call reaches the network: the cached wrapper has no stored answer
    for its arguments. *)
Definition reaches_network (c : wrapper_call) (w : world) : Prop :=
  match c with
  | IndexesData api_url hdrs => cache_lookup (api_url, hdrs) (data_cache w) = None
  | _ => True
  end.

(** A transport exception, or a response whose status is not 200. *)
Definition failure (o : outcome) : Prop :=
  match o with
  | Fails _ => True
  | Responds r => status_code r <> 200
  end.

(** A client-error or server-error status, the ones [raise_for_status]
    raises for. *)
Definition error_status (r : response) : Prop :=
  400 <= status_code r < 600.

(** The request of the prompt download. *)
Definition prompts_request (api_url : string) (hdrs : headers) (storage_name : string)
  (limit : Z) : request :=
  Request GET (api_url +:+ "/index/config/prompts")
    [("storage_name", PStr storage_name); ("limit", PInt limit)] hdrs None None true.

(** The prompt files [build_index] attaches, and the request it posts with
    them. *)
Definition build_index_prompt_files
  (entity_extraction_prompt_filepath community_prompt_filepath
   summarize_description_prompt_filepath : prompt_source) : M (list (string * string)) :=
  prompt_files ← attach_prompt "entity_extraction_prompt"
                   entity_extraction_prompt_filepath [];
  prompt_files ← attach_prompt "community_report_prompt"
                   community_prompt_filepath prompt_files;
  attach_prompt "summarize_descriptions_prompt"
    summarize_description_prompt_filepath prompt_files.

Definition build_index_request (api_url : string) (hdrs : headers)
  (storage_name index_name : string) (prompt_files : list (string * string)) : request :=
  Request POST (api_url +:+ "/index")
    [("index_name", PStr index_name); ("storage_name", PStr storage_name)]
    hdrs None
    (if Nat.ltb 0 (List.length prompt_files) then Some prompt_files else None)
    false.

(** A network that answers every request with the same response. *)
Definition always (r : response) : list request -> request -> outcome :=
  fun _ _ => Responds r.

Definition set_net (n : list request -> request -> outcome) (w : world) : world :=
  World (session_state w) (st_errors w) (stdout w) (fs w) (sent w) n (data_cache w).

Definition server_error : response :=
  Response 500 (Ok (PDict [("detail", PStr "internal error")])) [] None.

(** A 304 response has no body. *)
Definition not_modified : response :=
  Response 304 (Raise JSONDecodeError) [] None.

Definition multiple_choices : response :=
  Response 300 (Raise JSONDecodeError) ["<html>choices"; "</html>"] None.

(** A stand-in for the archive decoder, for trying the theorems out: one
    byte string is the archive of three prompt files, every other one is
    malformed. *)
Definition sample_archive : list (string * member_data) :=
  [("prompts/community_y.txt", Stored "communities");
   ("prompts/summary.txt", Stored "summaries");
   ("prompts/entity_x.txt", Stored "entities")].

Definition sample_decode (data : string) : option (list (string * member_data)) :=
  if String.eqb data "PK-sample" then Some sample_archive else None.

(** A file member that cannot be extracted whole. *)
Definition damaged (m : string * member_data) : Prop :=
  endswith (fst m) "/" = false
  /\ match snd m with
     | Stored _ => False
     | _ => True
     end.

(** An archive whose second member has a broken compressed stream, and a
    working directory that holds it. *)
Definition damaged_archive : list (string * member_data) :=
  [("prompts/summary.txt", Stored "summaries");
   ("prompts/entity_x.txt", Damaged "enti" ZlibError);
   ("prompts/community_y.txt", Stored "communities")].

Definition damaged_decode (data : string) : option (list (string * member_data)) :=
  if String.eqb data "PK-damaged" then Some damaged_archive else None.


(** ** Archives of prompt files *)

(** The member [m] of an archive is the file [f] (name and text) of the
    directory [dir]: extraction puts it at [dir/name], and it is not a
    directory member. *)
Definition extracts_to (dir : string) (m : string * member_data) (f : string * string)
  : Prop :=
  zip_target (fst m) = [dir; fst f] /\ endswith (fst m) "/" = false
  /\ snd m = Stored (snd f).




(** A working directory that holds the sample archive and nothing else. *)
Definition sample_files : list (string * string) :=
  [("community_y.txt", "communities");
   ("summary.txt", "summaries");
   ("entity_x.txt", "entities")].

Definition downloaded_world : world :=
  set_fs (FS.Dir [("prompts.zip", FS.File "PK-sample")]) world0.

(** A session in which the entity prompt has been edited. *)
Definition edited_world : world :=
  set_session_state (insert "entity" (PStr "edited prompt")) world0.

(** * The prompt-generation step of [index_pipeline.py]

    The Streamlit widgets of the step render, and hand back what the user
    did: the container chosen in the select box and whether the button was
    pressed. The step takes these two values as arguments. *)

(** The truth value of a Python value, as [any] tests it. The bits of a
    float are its IEEE-754 pattern: both zeros are false. *)
Definition truthy (v : pyval) : bool :=
  match v with
  | PNone => false
  | PBool b => b
  | PInt n => negb (n =? 0)
  | PFloat bits => negb (Z.land bits (2 ^ 63 - 1) =? 0)
  | PStr s => negb (String.eqb s "")
  | PList l => match l with [] => false | _ :: _ => true end
  | PDict d => match d with [] => false | _ :: _ => true end
  end.

(** [st.session_state[k]] *)
Definition session_get (k : string) : M pyval := fun w =>
  match session_state w !! k with
  | Some v => (Ok v, w)
  | None => (Raise (KeyError k), w)
  end.

Section PromptConfigStep.

Variable zip_decode : string -> option (list (string * member_data)).
Variable PromptKeys : list string.
Variables SUMMARY ENTITY COMMUNITY : string.

(** [prompt_expander_] of [components/prompt_expander.py], which shows the
    prompts for editing. *)
Variable prompt_expander_ : M unit.

Definition prompt_config_step (self : IndexPipeline.t)
  (select_storage_name2 : string) (triggered : bool) : M unit :=
  container_names ← IndexPipeline._parse_container_names self;
  if triggered then
    generate_and_extract_prompts zip_decode (IndexPipeline.api_url self)
      (IndexPipeline.headers_ self) select_storage_name2 "prompts.zip" 5 ;;
    update_session_state_prompt_vars SUMMARY ENTITY COMMUNITY None None None
      true "./prompts" ;;
    let prompt_keys := PromptKeys in
    prompt_values ← comprehension session_get prompt_keys;
    if existsb truthy prompt_values then prompt_expander_ else mret tt
  else mret tt.

End PromptConfigStep.

(** * The smoke test [infra/APIM.py]

    The subscription key is the one of the deployment under test. *)

Module APIM.
Section Script.

Variable ocp_apim_subscription_key : string.

Definition headers : list (string * string) :=
  [("Ocp-Apim-Subscription-Key", ocp_apim_subscription_key)].

Definition endpoint : string := "https://apim-6b7pszrzqfrdm.azure-api.net".

Definition main : M unit :=
  response ← requests_get (endpoint +:+ "/data") [] headers false;
  print [FInt (status_code response)] ;;
  body ← lift (json_ response);
  print [FVal body].

End Script.
End APIM.

(** * Further vocabulary for the properties *)

(** The code of a wrapper, without the cache for the cached one. *)
Definition wrapper_body (c : wrapper_call) : M pyval :=
  match c with
  | IndexesData api_url hdrs => get_indexes_data_body api_url hdrs
  | _ => call c
  end.

(** The message that reports an exception, and the one that reports a
    status. *)
Definition exception_message (e : exn) : message := [Lit "Error: "; FExn e].
Definition status_message (r : response) : message :=
  [Lit "Error: "; FInt (status_code r)].

(** The two wrappers that put the response body into their message. *)
Definition reports_body (c : wrapper_call) : bool :=
  match c with
  | QueryIndex _ _ _ _ _ | SourceEntity _ _ _ _ => true
  | _ => false
  end.

(** What a wrapper returns and displays, by the outcome of its request. *)
Definition reported (c : wrapper_call) (o : outcome) : pyval * list message :=
  match o with
  | Fails e => (PNone, [exception_message e])
  | Responds r =>
      if status_code r =? 200 then
        match json_ r with
        | Ok v => (v, [])
        | Raise e => (PNone, [exception_message e])
        end
      else if reports_body c then
        match json_ r with
        | Ok body =>
            (PNone, [[Lit "Error: "; FInt (status_code r); Lit " "; FVal body]])
        | Raise e => (PNone, [exception_message e])
        end
      else (PNone, [status_message r])
  end.

(** The world after a request and the display of some messages. *)
Definition sent_and_shown (rq : request) (msgs : list message) (w : world) : world :=
  World (session_state w) (st_errors w ++ msgs) (stdout w) (fs w) (sent w ++ [rq])
    (net w) (data_cache w).

(** A prompt argument that names no file: [None], the empty path, or a
    buffer. *)
Definition names_no_file (src : prompt_source) : Prop :=
  match src with
  | PromptPath p => p = ""
  | _ => True
  end.

(** The form part a buffer contributes. *)
Definition buffer_part (key : string) (src : prompt_source) : list (string * string) :=
  match src with
  | PromptStringIO text => [(key, text)]
  | _ => []
  end.

(** The body of a response as it was received: its chunks, joined. *)
Definition body_of (chunks : list string) : string :=
  foldr String.append "" chunks.

(** The [.txt] entries of a listing, the only ones [get_prompts] looks at. *)
Definition txt_entries (es : list (string * FS.node)) : list (string * FS.node) :=
  List.filter (fun e => endswith (fst e) ".txt") es.

(** [l[0]] of a list that may have failed to be built. *)
Definition first_of (r : result (list string)) : result string :=
  match r with
  | Ok l => index0 l
  | Raise e => Raise e
  end.

(** The three prompts, each loaded or failed, as [get_prompts] combines
    them: the first failure is the one raised. *)
Definition triple_of (s e c : result string) : result (string * string * string) :=
  match s with
  | Raise x => Raise x
  | Ok s' =>
      match e with
      | Raise x => Raise x
      | Ok e' =>
          match c with
          | Raise x => Raise x
          | Ok c' => Ok (s', e', c')
          end
      end
  end.


(** The directory [dir] of a listing holds the entries [es0], or is absent
    and [es0] is empty. *)
Definition holds (dir : string) (res es0 : list (string * FS.node)) : Prop :=
  FS.child dir res = Some (FS.Dir es0) \/ (FS.child dir res = None /\ es0 = []).

(** No name of the files is taken by a directory in the listing. *)
Definition no_folder_in_the_way (files : list (string * string))
  (es0 : list (string * FS.node)) : Prop :=
  forall f sub, In f files -> FS.child (fst f) es0 <> Some (FS.Dir sub).

(** A file written into a listing. *)
Definition put_entry (es : list (string * FS.node)) (f : string * string)
  : list (string * FS.node) :=
  FS.set_child (fst f) (FS.File (snd f)) es.

(** A prompt directory left by an earlier generation, and the archive of
    a later one. *)
Definition earlier_prompts : list (string * FS.node) :=
  [("summary.txt", FS.File "old summaries"); ("notes.md", FS.File "keep me")].

Definition regenerated_world : world :=
  set_fs (FS.Dir [("prompts", FS.Dir earlier_prompts);
                  ("prompts.zip", FS.File "PK-sample")]) world0.

(** The diagnostics of the option builders. *)
Definition no_indexes_message (e : exn) : message :=
  [Lit "No indexes found, continuing..."; Lit newline; Lit "Exception: "; FExn e].

Definition no_containers_message (e : exn) : message :=
  [Lit "No data containers found, continuing..."; Lit newline; Lit "Exception: "; FExn e].

(** What [[""] + v[k]] raises, if it raises: [KeyError] for a dict
    without the key, [TypeError] for a value that takes no string subscript
    and for an entry that is no list. *)
Definition lookup_error (v : pyval) (k : string) : option exn :=
  match v with
  | PDict d =>
      match dict_get k d with
      | Some (PList _) => None
      | Some _ => Some TypeError
      | None => Some (KeyError k)
      end
  | _ => Some TypeError
  end.

(** An operation that leaves the session state alone. *)
Definition keeps_session {A} (m : M A) : Prop :=
  forall w, session_state (snd (m w)) = session_state w.

(** The session state after the three prompts were stored. *)
Definition with_prompts (SUMMARY ENTITY COMMUNITY : string) (s e c : string)
  (w : world) : world :=
  set_session_state
    (fun st => <[COMMUNITY := PStr c]> (<[ENTITY := PStr e]> (<[SUMMARY := PStr s]> st)))
    w.

(** An expander that leaves a note on the standard output, to try the step
    out. *)
Definition sample_expander : M unit := print [Lit "prompt expander"].

(** A pipeline over one storage container, and a service that streams
    the sample archive. *)
Definition sample_pipeline : IndexPipeline.t :=
  IndexPipeline.Build (PDict [("storage_name", PList [PStr "store"])]) "http://api" [] [].

Definition streaming_world : world :=
  set_net (always (Response 200 (Raise JSONDecodeError) ["PK-"; "sample"] None)) world0.


Definition damaged_world : world :=
  set_fs (FS.Dir [("prompts.zip", FS.File "PK-damaged")]) world0.

(** ** Archives in general *)








(** Archives to try the round trip on: one with a directory member, a
    nested name and a file outside the prompt directory; one of flat names;
    one whose summary has a DOS line ending; one whose summary is Latin-1. *)
Definition nested_archive : list (string * member_data) :=
  [("prompts/", Stored "");
   ("prompts/community_y.txt", Stored "communities");
   ("prompts/old/summary.txt", Stored "stale");
   ("README.md", Stored "read me");
   ("prompts/summary.txt", Stored "summaries");
   ("prompts/entity_x.txt", Stored "entities")].

Definition flat_archive : list (string * member_data) :=
  [("summary.txt", Stored "summaries");
   ("entity_x.txt", Stored "entities");
   ("community_y.txt", Stored "communities")].

Definition dos_text : string := String "a" (String CR (String LF "b")).

Definition dos_archive : list (string * member_data) :=
  [("prompts/summary.txt", Stored dos_text);
   ("prompts/entity_x.txt", Stored "entities");
   ("prompts/community_y.txt", Stored "communities")].

Definition latin1_text : string :=
  String (ascii_of_nat 233) (String "t" (String (ascii_of_nat 233) "")).

Definition latin1_archive : list (string * member_data) :=
  [("prompts/summary.txt", Stored latin1_text);
   ("prompts/entity_x.txt", Stored "entities");
   ("prompts/community_y.txt", Stored "communities")].

Definition archives_decode (data : string) : option (list (string * member_data)) :=
  if String.eqb data "PK-nested" then Some nested_archive
  else if String.eqb data "PK-flat" then Some flat_archive
  else if String.eqb data "PK-dos" then Some dos_archive
  else if String.eqb data "PK-latin1" then Some latin1_archive
  else None.

(** A working directory that holds one zip file. *)
Definition holding_zip (data : string) : world :=
  set_fs (FS.Dir [("prompts.zip", FS.File data)]) world0.

(** * Properties *)

(** ** The primitives on small inputs *)

Example resolve_prompts : FS.resolve "./prompts" = ["prompts"].
Proof. reflexivity. Qed.

Example zip_target_member :
  zip_target "prompts/./summary.txt" = ["prompts"; "summary.txt"].
Proof. reflexivity. Qed.

Example lower_mixed : lower "Global" = "global".
Proof. reflexivity. Qed.

Example is_prompt_summary :
  is_prompt "summ" "summary.txt" = true /\ is_prompt "summ" "summary.md" = false
  /\ is_prompt "entity" "summary.txt" = false.
Proof. repeat split. Qed.

(** Download, extraction and loading in one run: the service streams the
    sample archive in two chunks. *)
Example download_extract_load :
  returned (get_prompts "./prompts")
    (after (generate_and_extract_prompts sample_decode "http://api" [] "store"
              "prompts.zip" 5)
       (set_net (always (Response 200 (Raise JSONDecodeError) ["PK-"; "sample"] None))
          world0))
  = Ok ("summaries", "entities", "communities").
Proof. reflexivity. Qed.

(** ** Option lists *)

Ltac run_monad :=
  unfold returned, after, try_except, lift, raise, print, st_error,
    mbind, M_bind, mret, M_ret in *; simpl in *.

Lemma show_index_options_returns (v : pyval) (w : world) :
  returned (show_index_options v) w =
  Ok (match getitem v "index_name" with
      | Ok (PList l) => PStr "" :: l
      | _ => [PStr ""]
      end).
Proof.
  unfold show_index_options. run_monad.
  destruct (getitem v "index_name") as [x|e]; [|reflexivity].
  destruct x; reflexivity.
Qed.

Lemma parse_container_names_returns (self : IndexPipeline.t) (w : world) :
  returned (IndexPipeline._parse_container_names self) w =
  Ok (match getitem (IndexPipeline.containers self) "storage_name" with
      | Ok (PList l) => PStr "" :: l
      | _ => [PStr ""]
      end).
Proof.
  unfold IndexPipeline._parse_container_names. run_monad.
  destruct (getitem _ "storage_name") as [x|e]; [|reflexivity].
  destruct x; reflexivity.
Qed.

(** C9. For the index-list response [{"index_name": ["foo", "bar"]}] the
    index-option builder returns exactly ["", "foo", "bar"]: the empty-string
    placeholder, then the returned names in their order; nothing is printed. *)
Theorem show_index_options_foo_bar (w : world) :
  show_index_options (PDict [("index_name", PList [PStr "foo"; PStr "bar"])]) w
  = (Ok [PStr ""; PStr "foo"; PStr "bar"], w).
Proof. reflexivity. Qed.

(** C8. When the storage-container list call returned zero containers (the
    [storage_name] entry is empty or missing), the parsed selection list is
    exactly the one-element list holding the empty-string placeholder. *)
Theorem parse_container_names_zero (self : IndexPipeline.t) (w : world) :
  zero_containers (IndexPipeline.containers self) ->
  returned (IndexPipeline._parse_container_names self) w = Ok [PStr ""].
Proof.
  intros (d & Hc & Hd). rewrite parse_container_names_returns, Hc. simpl.
  destruct Hd as [-> | ->]; reflexivity.
Qed.

Lemma parse_container_names_zero_witness :
  returned (IndexPipeline._parse_container_names
              (IndexPipeline.Build (PDict [("storage_name", PList [])]) "http://api" [] []))
           world0 = Ok [PStr ""]
  /\ returned (IndexPipeline._parse_container_names
                 (IndexPipeline.Build (PDict []) "http://api" [] []))
              world0 = Ok [PStr ""].
Proof.
  split; apply parse_container_names_zero; simpl.
  - exists [("storage_name", PList [])]. split; [reflexivity | left; reflexivity].
  - exists []. split; [reflexivity | right; reflexivity].
Defined.

(** C10. The option-list builders are total on every value: they never
    raise, the list they return starts with the empty string, and it is
    exactly [""] whenever the lookup fails or its value cannot be appended to
    a list. *)
Theorem option_builders_total (v : pyval) (self : IndexPipeline.t) (w : world) :
  ((exists l, returned (show_index_options v) w = Ok (PStr "" :: l)) /\
   (forall e, getitem v "index_name" = Raise e ->
      returned (show_index_options v) w = Ok [PStr ""]) /\
   (forall x e, getitem v "index_name" = Ok x -> list_add [PStr ""] x = Raise e ->
      returned (show_index_options v) w = Ok [PStr ""]))
  /\
  ((exists l, returned (IndexPipeline._parse_container_names self) w = Ok (PStr "" :: l)) /\
   (forall e, getitem (IndexPipeline.containers self) "storage_name" = Raise e ->
      returned (IndexPipeline._parse_container_names self) w = Ok [PStr ""]) /\
   (forall x e, getitem (IndexPipeline.containers self) "storage_name" = Ok x ->
      list_add [PStr ""] x = Raise e ->
      returned (IndexPipeline._parse_container_names self) w = Ok [PStr ""])).
Proof.
  rewrite show_index_options_returns, parse_container_names_returns.
  split; (split; [|split]).
  - destruct (getitem v _) as [[]|]; eauto.
  - intros e ->. reflexivity.
  - intros x e -> Hx. destruct x; try reflexivity. discriminate.
  - destruct (getitem _ _) as [[]|]; eauto.
  - intros e ->. reflexivity.
  - intros x e -> Hx. destruct x; try reflexivity. discriminate.
Qed.

Lemma option_builders_total_witness :
  returned (show_index_options PNone) world0 = Ok [PStr ""]
  /\ returned (show_index_options (PDict [("index_name", PStr "foo")])) world0 = Ok [PStr ""]
  /\ returned (IndexPipeline._parse_container_names
                 (IndexPipeline.Build (PList []) "http://api" [] [])) world0 = Ok [PStr ""]
  /\ returned (IndexPipeline._parse_container_names
                 (IndexPipeline.Build (PDict [("storage_name", PInt 3)]) "http://api" [] []))
              world0 = Ok [PStr ""].
Proof.
  split; [|split; [|split]].
  - apply (proj1 (proj2 (proj1
      (option_builders_total PNone (IndexPipeline.Build PNone "" [] []) world0)))
      TypeError).
    reflexivity.
  - apply (proj2 (proj2 (proj1
      (option_builders_total (PDict [("index_name", PStr "foo")])
         (IndexPipeline.Build PNone "" [] []) world0)))
      (PStr "foo") TypeError); reflexivity.
  - apply (proj1 (proj2 (proj2
      (option_builders_total PNone
         (IndexPipeline.Build (PList []) "http://api" [] []) world0)))
      TypeError).
    reflexivity.
  - apply (proj2 (proj2 (proj2
      (option_builders_total PNone
         (IndexPipeline.Build (PDict [("storage_name", PInt 3)]) "http://api" [] [])
         world0)))
      (PInt 3) TypeError); reflexivity.
Defined.

(** ** The query request *)

Lemma query_index_sent index_name query_type query api_url hdrs (w : world) :
  sent (after (query_index index_name query_type query api_url hdrs) w)
  = sent w ++ [query_request index_name query_type query api_url hdrs].
Proof.
  unfold query_index, requests_post, requests_send, query_request. run_monad.
  destruct (net w (sent w) _) as [r|e]; simpl; [|reflexivity].
  destruct (status_code r =? 200); simpl; destruct (json_ r); reflexivity.
Qed.

(** C5. A query for index list ["foo"], type "global" and text "hello"
    issues exactly one request: a POST to [{base}/query/global], whose JSON
    body is [{"index_name": ["foo"], "query": "hello",
    "reformat_context_data": true}]. The type is lower-cased before use, so
    "GLOBAL" reaches the same address. *)
Theorem query_index_posts_global (api_url : string) (hdrs : headers) (w : world) :
  sent (after (query_index ["foo"] "global" "hello" api_url hdrs) w)
  = sent w ++
    [Request POST (api_url +:+ "/query/global") [] hdrs
       (Some (PDict [("index_name", PList [PStr "foo"]);
                     ("query", PStr "hello");
                     ("reformat_context_data", PBool true)]))
       None false]
  /\ sent (after (query_index ["foo"] "GLOBAL" "hello" api_url hdrs) w)
     = sent (after (query_index ["foo"] "global" "hello" api_url hdrs) w).
Proof.
  rewrite !query_index_sent. split; reflexivity.
Qed.

(** ** Session state *)

Lemma set_session_state_id (w : world) : set_session_state (fun s => s) w = w.
Proof. destruct w; reflexivity. Qed.

Lemma init_key_spec (k : string) (w : world) :
  init_key k w = (Ok tt, set_session_state (init_pure k) w).
Proof.
  unfold init_key, init_pure, set_session_state.
  destruct w as [ss ? ? ? ? ? ?]; simpl. destruct (ss !! k); reflexivity.
Qed.

Lemma for_each_init_key (l : list string) (w : world) :
  for_each l init_key w = (Ok tt, set_session_state (fun s => foldl (flip init_pure) s l) w).
Proof.
  revert w. induction l as [|k l IH]; intros w; simpl.
  - unfold mret, M_ret. by rewrite set_session_state_id.
  - unfold mbind, M_bind. rewrite init_key_spec, IH. reflexivity.
Qed.

Lemma set_session_state_variables_spec (PromptKeys : list string) (w : world) :
  set_session_state_variables PromptKeys w
  = (Ok tt, set_session_state (fun s => foldl (flip init_pure) s (fixed_keys PromptKeys)) w).
Proof.
  unfold set_session_state_variables, fixed_keys, mbind, M_bind.
  rewrite for_each_init_key, init_key_spec.
  destruct w; unfold set_session_state; simpl. by rewrite foldl_app.
Qed.

Lemma init_pure_lookup (k k' : string) (s : gmap string pyval) :
  init_pure k s !! k' =
  match s !! k' with
  | Some v => Some v
  | None => if bool_decide (k' = k) then Some (PStr "") else None
  end.
Proof.
  unfold init_pure. destruct (s !! k) as [v|] eqn:Hk.
  - destruct (s !! k') eqn:Hk'; [reflexivity|].
    case_bool_decide; [congruence | reflexivity].
  - case_bool_decide as Heq.
    + subst. rewrite lookup_insert_eq, Hk. reflexivity.
    + rewrite lookup_insert_ne by congruence. destruct (s !! k'); reflexivity.
Qed.

Lemma foldl_init_pure_lookup (l : list string) (k : string) (s : gmap string pyval) :
  foldl (flip init_pure) s l !! k =
  match s !! k with
  | Some v => Some v
  | None => if bool_decide (k ∈ l) then Some (PStr "") else None
  end.
Proof.
  revert s. induction l as [|a l IH]; intros s; cbn [foldl].
  - destruct (s !! k); [reflexivity|].
    rewrite bool_decide_eq_false_2; [reflexivity | apply not_elem_of_nil].
  - rewrite IH. unfold flip. rewrite init_pure_lookup.
    destruct (s !! k) as [v|]; [reflexivity|].
    destruct (decide (k = a)) as [->|Hne].
    + rewrite bool_decide_eq_true_2 by reflexivity.
      rewrite bool_decide_eq_true_2 by constructor. reflexivity.
    + rewrite (bool_decide_eq_false_2 (k = a)) by assumption.
      destruct (decide (k ∈ l)) as [Hin|Hnin].
      * rewrite !bool_decide_eq_true_2; [reflexivity | by constructor | assumption].
      * rewrite !bool_decide_eq_false_2; [reflexivity | | assumption].
        intros H. inversion H; subst; contradiction.
Qed.

Lemma foldl_init_pure_idem (l : list string) (s : gmap string pyval) :
  foldl (flip init_pure) (foldl (flip init_pure) s l) l = foldl (flip init_pure) s l.
Proof.
  apply map_eq. intros k. rewrite !foldl_init_pure_lookup.
  destruct (s !! k); [reflexivity|]. case_bool_decide; reflexivity.
Qed.

(** C3. Session-state initialisation never fails and is idempotent. From
    any prior state it creates each missing fixed key with the empty string,
    leaves every value that is already stored (the empty one or any other) as
    it is, creates no other key, and running it a second time changes
    nothing at all. *)
Theorem set_session_state_variables_idempotent
  (PromptKeys : list string) (w : world) :
  let w1 := after (set_session_state_variables PromptKeys) w in
  returned (set_session_state_variables PromptKeys) w = Ok tt
  /\ (forall k, k ∈ fixed_keys PromptKeys -> session_state w !! k = None ->
        session_state w1 !! k = Some (PStr ""))
  /\ (forall k v, session_state w !! k = Some v -> session_state w1 !! k = Some v)
  /\ (forall k, k ∉ fixed_keys PromptKeys -> session_state w1 !! k = session_state w !! k)
  /\ set_session_state_variables PromptKeys w1 = (Ok tt, w1).
Proof.
  unfold returned, after. rewrite set_session_state_variables_spec. simpl.
  split; [reflexivity|]. split; [|split; [|split]].
  - intros k Hin Hk. rewrite foldl_init_pure_lookup, Hk.
    by rewrite bool_decide_eq_true_2.
  - intros k v Hk. by rewrite foldl_init_pure_lookup, Hk.
  - intros k Hin. rewrite foldl_init_pure_lookup.
    destruct (session_state w !! k); [reflexivity|].
    by rewrite bool_decide_eq_false_2.
  - rewrite set_session_state_variables_spec. f_equal.
    destruct w; unfold set_session_state; simpl. f_equal.
    apply foldl_init_pure_idem.
Qed.

Lemma set_session_state_variables_idempotent_witness :
  session_state (after (set_session_state_variables ["summary"; "entity"; "community"])
                   edited_world) !! "summary" = Some (PStr "")
  /\ session_state (after (set_session_state_variables ["summary"; "entity"; "community"])
                      edited_world) !! "entity" = Some (PStr "edited prompt")
  /\ session_state (after (set_session_state_variables ["summary"; "entity"; "community"])
                      edited_world) !! "other" = session_state edited_world !! "other".
Proof.
  pose proof (set_session_state_variables_idempotent
                ["summary"; "entity"; "community"] edited_world)
    as (_ & Hnew & Hold & Hout & _).
  split; [|split].
  - apply Hnew; [|reflexivity].
    apply list_elem_of_In. simpl. tauto.
  - apply Hold. reflexivity.
  - apply Hout. intros H.
    apply list_elem_of_In in H. simpl in H.
    repeat destruct H as [H|H]; try discriminate; contradiction.
Defined.

(** ** Loading the prompts *)

Lemma walk_snoc (w1 w2 p : list string) (n : string) (root : FS.node)
  (es : list (string * FS.node)) :
  FS.walk w1 p root = Ok (FS.Dir es) ->
  FS.walk w2 (p ++ [n]) root =
  match FS.child n es with
  | Some x => Ok x
  | None => Raise (FileNotFoundError w2)
  end.
Proof.
  revert root. induction p as [|c p IH]; intros root H; simpl in *.
  - inversion H; subst. destruct (FS.child n es); reflexivity.
  - destruct root as [|es']; [discriminate|].
    destruct (FS.child c es'); [eauto | discriminate].
Qed.

Lemma name_snoc (p : list string) (n : string) : FS.name (p ++ [n]) = n.
Proof. unfold FS.name. apply last_last. Qed.

Lemma filter_map_comm {A B} (f : B -> bool) (g : A -> B) (l : list A) :
  List.filter f (map g l) = map g (List.filter (fun x => f (g x)) l).
Proof.
  induction l as [|x l IH]; simpl; [reflexivity|].
  destruct (f (g x)); simpl; by rewrite IH.
Qed.

Lemma filter_filter_andb {A} (f g : A -> bool) (l : list A) :
  List.filter g (List.filter f l) = List.filter (fun x => f x && g x) l.
Proof.
  induction l as [|x l IH]; simpl; [reflexivity|].
  destruct (f x); simpl; [destruct (g x)|]; by rewrite IH.
Qed.

(** The paths [get_prompts] opens for a prefix are those of the matching
    entries. *)
Lemma prompt_paths_matches (p : list string) (prefix : string)
  (es : list (string * FS.node)) :
  List.filter (fun path => startswith (FS.name path) prefix)
    (List.filter (fun prompt => endswith (FS.name prompt) ".txt")
       (map (fun e => p ++ [fst e]) es))
  = map (fun e => p ++ [fst e]) (txt_matches prefix es).
Proof.
  rewrite filter_filter_andb, filter_map_comm. unfold txt_matches, is_prompt.
  f_equal. apply filter_ext. intros e. by rewrite name_snoc.
Qed.




Lemma comprehension_cons {A B} (f : A -> M B) (x : A) (l : list A) (w : world) :
  comprehension f (x :: l) w
  = match f x w with
    | (Ok y, w') =>
        match comprehension f l w' with
        | (Ok ys, w'') => (Ok (y :: ys), w'')
        | (Raise e, w'') => (Raise e, w'')
        end
    | (Raise e, w') => (Raise e, w')
    end.
Proof. reflexivity. Qed.

Lemma open_file_run (p : list string) (w : world) :
  open_file p w
  = (match FS.read p (fs w) with
     | Ok data => read_text data
     | Raise e => Raise e
     end, w).
Proof.
  unfold open_file, mbind, M_bind, fs_read, lift.
  destruct (FS.read p (fs w)); reflexivity.
Qed.





(** [get_prompts] only reads. *)
Lemma comprehension_open_file_after (ps : list (list string)) (w : world) :
  snd (comprehension open_file ps w) = w.
Proof.
  induction ps as [|p ps IH]; [reflexivity|].
  rewrite comprehension_cons, open_file_run.
  destruct (match FS.read p (fs w) with Ok data => read_text data | Raise e => Raise e end);
    [|reflexivity].
  destruct (comprehension open_file ps w) as [[l|e] w'] eqn:H; simpl in *; by subst.
Qed.

Lemma first_prompt_after (ps : list (list string)) (w : world) :
  snd ((l ← comprehension open_file ps; lift (index0 l)) w) = w.
Proof.
  unfold mbind, M_bind. pose proof (comprehension_open_file_after ps w) as H.
  destruct (comprehension open_file ps w) as [[l|e] w']; simpl in *; by subst.
Qed.

Lemma get_prompts_after (prompt_dir : string) (w : world) :
  after (get_prompts prompt_dir) w = w.
Proof.
  unfold after, get_prompts.
  unfold mbind at 1, M_bind at 1, fs_iterdir at 1.
  destruct (FS.iterdir _ (fs w)) as [entries|]; [|reflexivity].
  repeat match goal with
  | |- snd (mbind ?k (mbind ?k' (comprehension open_file ?ps)) w) = w =>
      unfold mbind at 1, M_bind at 1;
      let H := fresh in
      pose proof (first_prompt_after ps w) as H;
      destruct ((mbind k' (comprehension open_file ps)) w) as [[?|?] ?];
      simpl in H; subst; [|reflexivity]
  end.
  reflexivity.
Qed.





(** ** Updating the prompt variables *)

Lemma get_prompts_run (prompt_dir : string) (w : world) :
  get_prompts prompt_dir w = (returned (get_prompts prompt_dir) w, w).
Proof.
  pose proof (get_prompts_after prompt_dir w) as H. unfold after, returned in *.
  destruct (get_prompts prompt_dir w); simpl in *. by subst.
Qed.

Lemma store3 (k1 k2 k3 : string) (v1 v2 v3 : pyval) (w : world) :
  (store k1 v1 ;; store k2 v2 ;; store k3 v3) w
  = (Ok tt, set_session_state (fun st => <[k3 := v3]> (<[k2 := v2]> (<[k1 := v1]> st))) w).
Proof. destruct w; reflexivity. Qed.

(** C6. The update operation has two modes. Without the initial flag the
    three explicit arguments are stored as given. With the flag they are
    ignored: the three texts loaded from the prompt directory are stored
    instead, and when loading fails the failure is raised and nothing is
    stored. With three distinct keys, each key then holds its own value. *)
Theorem update_session_state_prompt_vars_dual_mode
  (SUMMARY ENTITY COMMUNITY : string)
  (summarize entity_extract community : option string)
  (prompt_dir : string) (w : world) :
  let update := update_session_state_prompt_vars SUMMARY ENTITY COMMUNITY in
  let stored (a b c : pyval) :=
    set_session_state
      (fun st => <[COMMUNITY := c]> (<[ENTITY := b]> (<[SUMMARY := a]> st))) w in
  update summarize entity_extract community false prompt_dir w
  = (Ok tt, stored (optional_str summarize) (optional_str entity_extract)
              (optional_str community))
  /\ (forall s e c,
        returned (get_prompts prompt_dir) w = Ok (s, e, c) ->
        update summarize entity_extract community true prompt_dir w
        = (Ok tt, stored (PStr s) (PStr e) (PStr c)))
  /\ (forall x,
        returned (get_prompts prompt_dir) w = Raise x ->
        update summarize entity_extract community true prompt_dir w = (Raise x, w))
  /\ (forall a b c,
        NoDup [SUMMARY; ENTITY; COMMUNITY] ->
        session_state (stored a b c) !! SUMMARY = Some a
        /\ session_state (stored a b c) !! ENTITY = Some b
        /\ session_state (stored a b c) !! COMMUNITY = Some c).
Proof.
  intros update stored. subst update stored.
  unfold update_session_state_prompt_vars. split; [|split; [|split]].
  - unfold mbind at 1, M_bind at 1. cbn [mret M_ret]. apply store3.
  - intros s e c H. unfold mbind at 1, M_bind at 1, mbind at 1, M_bind at 1.
    rewrite get_prompts_run, H. cbn [mret M_ret]. apply store3.
  - intros x H. unfold mbind at 1, M_bind at 1, mbind at 1, M_bind at 1.
    rewrite get_prompts_run, H. reflexivity.
  - intros a b c H. simpl.
    apply NoDup_cons in H as [H1 H2]. apply NoDup_cons in H2 as [H2 _].
    assert (ENTITY <> SUMMARY) by (intros <-; apply H1; constructor).
    assert (COMMUNITY <> SUMMARY) by (intros <-; apply H1; do 2 constructor).
    assert (COMMUNITY <> ENTITY) by (intros <-; apply H2; constructor).
    split; [|split].
    + rewrite !lookup_insert_ne by assumption. apply lookup_insert_eq.
    + rewrite lookup_insert_ne by assumption. apply lookup_insert_eq.
    + apply lookup_insert_eq.
Qed.

Lemma update_session_state_prompt_vars_dual_mode_witness :
  update_session_state_prompt_vars "summary" "entity" "community"
    (Some "ignored") None (Some "ignored too") true "./prompts" two_summaries_world
  = (Ok tt,
     set_session_state
       (fun st => <["community" := PStr "communities"]>
                    (<["entity" := PStr "entities"]>
                       (<["summary" := PStr "first summary"]> st)))
       two_summaries_world)
  /\ update_session_state_prompt_vars "summary" "entity" "community"
       (Some "ignored") None (Some "ignored too") true "./prompts" world0
     = (Raise (FileNotFoundError ["prompts"]), world0)
  /\ session_state
       (set_session_state
          (fun st => <["community" := PNone]>
                       (<["entity" := PStr "e"]> (<["summary" := PStr "s"]> st)))
          world0) !! "entity" = Some (PStr "e").
Proof.
  pose proof (update_session_state_prompt_vars_dual_mode "summary" "entity" "community"
                (Some "ignored") None (Some "ignored too") "./prompts"
                two_summaries_world) as (_ & Hload & _ & _).
  pose proof (update_session_state_prompt_vars_dual_mode "summary" "entity" "community"
                (Some "ignored") None (Some "ignored too") "./prompts"
                world0) as (_ & _ & Hfail & Hkeys).
  split; [|split].
  - apply Hload. reflexivity.
  - apply Hfail. reflexivity.
  - apply (Hkeys (PStr "s") (PStr "e") PNone).
    repeat constructor; rewrite ?not_elem_of_cons; try apply not_elem_of_nil;
      repeat split; try discriminate; apply not_elem_of_nil.
Defined.

(** ** Failures of the HTTP wrappers *)

Lemma requests_send_fails (rq : request) (e : exn) (w : world) :
  net w (sent w) rq = Fails e ->
  requests_send rq w = (Raise e, set_sent (fun l => l ++ [rq]) w).
Proof. intros H. unfold requests_send. by rewrite H. Qed.

Lemma requests_send_responds (rq : request) (r : response) (w : world) :
  net w (sent w) rq = Responds r ->
  requests_send rq w = (Ok r, set_sent (fun l => l ++ [rq]) w).
Proof. intros H. unfold requests_send. by rewrite H. Qed.

Lemma call_failure_body (c : wrapper_call) (w : world) :
  failure (net w (sent w) (request_of c)) ->
  returned
    (match c with
     | IndexesData api_url hdrs => get_indexes_data_body api_url hdrs
     | _ => call c
     end) w = Ok PNone.
Proof.
  intros Hfail.
  destruct c; simpl in *;
    unfold get_storage_container_names, get_entity_data, get_indexes_data_body,
      query_index, get_source_entity, requests_get, requests_post, query_request in *;
    unfold returned, try_except, mbind, M_bind, requests_send;
    (destruct (net w (sent w) _) as [r|e]; simpl in *; [|reflexivity]);
    (destruct (status_code r =? 200) eqn:Hs; [apply Z.eqb_eq in Hs; contradiction|]);
    simpl; unfold lift; try reflexivity;
    destruct (json_ r); reflexivity.
Qed.

Lemma call_failure (c : wrapper_call) (w : world) :
  reaches_network c w ->
  failure (net w (sent w) (request_of c)) ->
  returned (call c) w = Ok PNone.
Proof.
  intros Hnet Hfail. pose proof (call_failure_body c w Hfail) as H.
  destruct c; try exact H.
  simpl in *. unfold get_indexes_data, cache_data, returned in *. rewrite Hnet.
  destruct (get_indexes_data_body api_url hdrs w) as [[v|e] w']; simpl in *;
    congruence.
Qed.

Lemma generate_prompts_fails api_url hdrs storage_name zip_file_name limit
  (e : exn) (w : world) :
  net w (sent w) (prompts_request api_url hdrs storage_name limit) = Fails e ->
  _generate_prompts api_url hdrs storage_name zip_file_name limit w
  = (Raise e, set_sent (fun l => l ++ [prompts_request api_url hdrs storage_name limit]) w).
Proof.
  intros H. unfold _generate_prompts, requests_get. cbv zeta.
  unfold mbind at 1, M_bind at 1. fold (prompts_request api_url hdrs storage_name limit).
  by rewrite (requests_send_fails _ e w H).
Qed.

Lemma generate_prompts_error_status api_url hdrs storage_name zip_file_name limit
  (r : response) (w : world) :
  net w (sent w) (prompts_request api_url hdrs storage_name limit) = Responds r ->
  error_status r ->
  _generate_prompts api_url hdrs storage_name zip_file_name limit w
  = (Raise (HTTPError (status_code r)),
     set_sent (fun l => l ++ [prompts_request api_url hdrs storage_name limit]) w).
Proof.
  intros H [Hlo Hhi]. unfold _generate_prompts, requests_get. cbv zeta.
  unfold mbind at 1, M_bind at 1. fold (prompts_request api_url hdrs storage_name limit).
  rewrite (requests_send_responds _ r w H).
  unfold mbind at 1, M_bind at 1, raise_for_status.
  apply Z.leb_le in Hlo. apply Z.ltb_lt in Hhi. rewrite Hlo, Hhi. reflexivity.
Qed.

Lemma attach_prompt_run (key : string) (src : prompt_source)
  (files : list (string * string)) (w : world) :
  attach_prompt key src files w = (returned (attach_prompt key src files) w, w).
Proof.
  unfold returned. destruct src as [|p|text]; simpl; try reflexivity.
  destruct (String.eqb p ""); [reflexivity|].
  unfold mbind, M_bind, fs_read. destruct (FS.read _ (fs w)); reflexivity.
Qed.

Lemma build_index_run api_url hdrs storage_name index_name e c s
  (files : list (string * string)) (w : world) :
  returned (build_index_prompt_files e c s) w = Ok files ->
  build_index api_url hdrs storage_name index_name e c s w
  = requests_send (build_index_request api_url hdrs storage_name index_name files) w.
Proof.
  intros H. unfold returned, build_index_prompt_files in H.
  unfold build_index, requests_post, build_index_request. cbv zeta.
  unfold mbind, M_bind in *.
  rewrite (attach_prompt_run _ e []) in *.
  destruct (returned (attach_prompt _ e []) w) as [f1|]; [|discriminate].
  cbn beta iota in *. rewrite (attach_prompt_run _ c f1) in *.
  destruct (returned (attach_prompt _ c f1) w) as [f2|]; [|discriminate].
  cbn beta iota in *. rewrite (attach_prompt_run _ s f2) in *.
  destruct (returned (attach_prompt _ s f2) w) as [f3|]; [|discriminate].
  cbn in H. inversion H; subst. reflexivity.
Qed.

(** C1 (as amended). The five wrappers that list storage containers, fetch
    the entity-extraction configuration, list indexes, submit a query and
    fetch a source entity return [None] and never raise, for every response
    whose status is not 200 and for every transport exception. Submitting an
    index-build job is different: [build_index] hands the response back
    whatever its status, and lets a transport exception reach its caller.
    The prompt download raises on a transport exception and on a 4xx or 5xx
    status. *)
Theorem wrappers_swallow_failures (c : wrapper_call) (w : world)
  (api_url : string) (hdrs : headers) (storage_name index_name zip_file_name : string)
  (e cm s : prompt_source) (files : list (string * string)) (limit : Z) :
  (reaches_network c w -> failure (net w (sent w) (request_of c)) ->
   returned (call c) w = Ok PNone)
  /\
  (returned (build_index_prompt_files e cm s) w = Ok files ->
   returned (build_index api_url hdrs storage_name index_name e cm s) w
   = match net w (sent w)
             (build_index_request api_url hdrs storage_name index_name files) with
     | Responds r => Ok r
     | Fails x => Raise x
     end)
  /\
  (forall x,
     net w (sent w) (prompts_request api_url hdrs storage_name limit) = Fails x ->
     returned (_generate_prompts api_url hdrs storage_name zip_file_name limit) w
     = Raise x)
  /\
  (forall r,
     net w (sent w) (prompts_request api_url hdrs storage_name limit) = Responds r ->
     error_status r ->
     returned (_generate_prompts api_url hdrs storage_name zip_file_name limit) w
     = Raise (HTTPError (status_code r))).
Proof.
  split; [|split; [|split]].
  - apply call_failure.
  - intros H. unfold returned at 1.
    rewrite (build_index_run _ _ _ _ _ _ _ files w H). unfold requests_send.
    destruct (net w (sent w) _); reflexivity.
  - intros x H. unfold returned. by rewrite (generate_prompts_fails _ _ _ _ _ x w H).
  - intros r H Hr. unfold returned.
    by rewrite (generate_prompts_error_status _ _ _ _ _ r w H Hr).
Qed.

Lemma wrappers_swallow_failures_witness :
  returned (call (QueryIndex ["foo"] "global" "hello" "http://api" []))
    (set_net (always server_error) world0) = Ok PNone
  /\ returned (call (IndexesData "http://api" [])) world0 = Ok PNone
  /\ returned (build_index "http://api" [] "store" "idx"
                 NoPrompt (PromptStringIO "edited") NoPrompt)
       (set_net (always server_error) world0) = Ok server_error
  /\ returned (_generate_prompts "http://api" [] "store" "prompts.zip" 5) world0
     = Raise (RequestException "connection refused")
  /\ returned (_generate_prompts "http://api" [] "store" "prompts.zip" 5)
       (set_net (always server_error) world0) = Raise (HTTPError 500).
Proof.
  split; [|split; [|split; [|split]]].
  - apply (proj1 (wrappers_swallow_failures
             (QueryIndex ["foo"] "global" "hello" "http://api" [])
             (set_net (always server_error) world0)
             "" [] "" "" "" NoPrompt NoPrompt NoPrompt [] 0)).
    + exact I.
    + simpl. discriminate.
  - apply (proj1 (wrappers_swallow_failures (IndexesData "http://api" []) world0
             "" [] "" "" "" NoPrompt NoPrompt NoPrompt [] 0)).
    + reflexivity.
    + exact I.
  - apply (proj1 (proj2 (wrappers_swallow_failures
             (EntityData "" []) (set_net (always server_error) world0)
             "http://api" [] "store" "idx" ""
             NoPrompt (PromptStringIO "edited") NoPrompt
             [("community_report_prompt", "edited")] 0))).
    reflexivity.
  - apply (proj1 (proj2 (proj2 (wrappers_swallow_failures
             (EntityData "" []) world0
             "http://api" [] "store" "" "prompts.zip"
             NoPrompt NoPrompt NoPrompt [] 5)))).
    reflexivity.
  - apply (proj2 (proj2 (proj2 (wrappers_swallow_failures
             (EntityData "" []) (set_net (always server_error) world0)
             "http://api" [] "store" "" "prompts.zip"
             NoPrompt NoPrompt NoPrompt [] 5))) server_error).
    + reflexivity.
    + unfold error_status. simpl. lia.
Defined.

(** C1, as stated, fails. [build_index] returns the response of a failed
    job submission (status 500) instead of a null result, and raises the
    transport exception when the service cannot be reached; the prompt
    download does not raise on status 304. *)
Lemma build_index_propagates_failures :
  returned (build_index "http://api" [] "store" "idx" NoPrompt NoPrompt NoPrompt)
    (set_net (always server_error) world0) = Ok server_error
  /\ status_code server_error <> 200
  /\ returned (build_index "http://api" [] "store" "idx" NoPrompt NoPrompt NoPrompt)
       world0 = Raise (RequestException "connection refused")
  /\ returned (_generate_prompts "http://api" [] "store" "prompts.zip" 5)
       (set_net (always not_modified) world0) = Ok tt.
Proof. repeat split. discriminate. Qed.

(** ** The prompt download and its extraction *)

Lemma extract_bad_zip (zip_decode : string -> option (list (string * member_data)))
  (zip_file_name data : string) (w : world) :
  FS.read (FS.resolve zip_file_name) (fs w) = Ok data ->
  zip_decode data = None ->
  _extract_prompts_from_zip zip_decode zip_file_name w = (Raise BadZipFile, w).
Proof.
  intros Hread Hbad. unfold _extract_prompts_from_zip, mbind, M_bind, fs_read.
  by rewrite Hread, Hbad.
Qed.

Lemma for_each_cons {A} (x : A) (l : list A) (body : A -> M unit) (w : world) :
  for_each (x :: l) body w
  = match body x w with
    | (Ok _, w') => for_each l body w'
    | (Raise e, w') => (Raise e, w')
    end.
Proof. reflexivity. Qed.

Lemma for_each_app {A} (l1 l2 : list A) (body : A -> M unit) (w w1 : world) :
  for_each l1 body w = (Ok tt, w1) ->
  for_each (l1 ++ l2) body w = for_each l2 body w1.
Proof.
  revert w. induction l1 as [|x l1 IH]; intros w H.
  - simpl in H. unfold mret, M_ret in H. by inversion H.
  - cbn [app]. rewrite for_each_cons in *.
    destruct (body x w) as [[[]|e] w']; [by apply IH | discriminate].
Qed.

(** A damaged member cannot be extracted. *)
Lemma extract_damaged_member (m : string * member_data) (w : world) :
  damaged m -> exists e w', extract_member m w = (Raise e, w').
Proof.
  intros [Hfile Hdata]. unfold extract_member, mbind, M_bind, fs_update.
  rewrite Hfile.
  destruct (FS.makedirs _ _ (fs w)) as [r1|e1]; [|eauto].
  destruct (snd m) as [d|d e|e]; [destruct Hdata | | cbn; eauto].
  cbn [fs set_fs]. destruct (FS.put _ _ d r1); cbn; eauto.
Qed.

Lemma extract_damaged_archive (members : list (string * member_data)) :
  Exists damaged members ->
  forall w, exists e w', for_each members extract_member w = (Raise e, w').
Proof.
  induction 1 as [m l Hm | m l _ IH]; intros w; rewrite for_each_cons.
  - destruct (extract_damaged_member m w Hm) as (e & w' & ->). eauto.
  - destruct (extract_member m w) as [[[]|e] w']; [apply IH | eauto].
Qed.

(** C7 (as amended). The generate-and-extract path raises rather than
    swallows. For every response with a 4xx or 5xx status the download step
    raises [HTTPError] before the zip file is opened, so the file system is
    as it was, and the combined operation raises the same error. For every
    malformed archive the extraction step raises: [BadZipFile], with nothing
    written, for a file without a central directory; and for an archive with
    a damaged member the error at which extraction stops, which is the error
    of the first member that fails, raised after the members before it have
    been written and before any later one is. The combined operation raises
    what the extraction raises. *)
Theorem prompt_path_raises (zip_decode : string -> option (list (string * member_data)))
  (api_url : string) (hdrs : headers) (storage_name zip_file_name : string)
  (limit : Z) (w : world) :
  (forall r,
     net w (sent w) (prompts_request api_url hdrs storage_name limit) = Responds r ->
     error_status r ->
     returned (_generate_prompts api_url hdrs storage_name zip_file_name limit) w
     = Raise (HTTPError (status_code r))
     /\ fs (after (_generate_prompts api_url hdrs storage_name zip_file_name limit) w)
        = fs w
     /\ returned (generate_and_extract_prompts zip_decode api_url hdrs storage_name
                    zip_file_name limit) w
        = Raise (HTTPError (status_code r))
     /\ fs (after (generate_and_extract_prompts zip_decode api_url hdrs storage_name
                     zip_file_name limit) w)
        = fs w)
  /\
  (forall data,
     FS.read (FS.resolve zip_file_name) (fs w) = Ok data ->
     zip_decode data = None ->
     _extract_prompts_from_zip zip_decode zip_file_name w = (Raise BadZipFile, w))
  /\
  (forall data members,
     FS.read (FS.resolve zip_file_name) (fs w) = Ok data ->
     zip_decode data = Some members ->
     Exists damaged members ->
     exists e w',
       _extract_prompts_from_zip zip_decode zip_file_name w = (Raise e, w'))
  /\
  (forall data before m later w1 e w2,
     FS.read (FS.resolve zip_file_name) (fs w) = Ok data ->
     zip_decode data = Some (before ++ m :: later) ->
     for_each before extract_member w = (Ok tt, w1) ->
     extract_member m w1 = (Raise e, w2) ->
     _extract_prompts_from_zip zip_decode zip_file_name w = (Raise e, w2))
  /\
  (forall w1 e w2,
     _generate_prompts api_url hdrs storage_name zip_file_name limit w = (Ok tt, w1) ->
     _extract_prompts_from_zip zip_decode zip_file_name w1 = (Raise e, w2) ->
     generate_and_extract_prompts zip_decode api_url hdrs storage_name
       zip_file_name limit w = (Raise e, w2)).
Proof.
  split; [|split; [|split; [|split]]].
  - intros r H Hr. unfold returned, after, generate_and_extract_prompts.
    unfold mbind, M_bind.
    rewrite (generate_prompts_error_status _ _ _ zip_file_name _ r w H Hr).
    repeat split.
  - intros data. apply extract_bad_zip.
  - intros data members Hread Hdecode Hdamaged.
    unfold _extract_prompts_from_zip, mbind, M_bind, fs_read.
    rewrite Hread, Hdecode. by apply extract_damaged_archive.
  - intros data before m later w1 e w2 Hread Hdecode Hbefore Hm.
    unfold _extract_prompts_from_zip, mbind, M_bind, fs_read.
    rewrite Hread, Hdecode, (for_each_app before (m :: later) _ w w1 Hbefore).
    by rewrite for_each_cons, Hm.
  - intros w1 e w2 Hgen Hex. unfold generate_and_extract_prompts.
    unfold mbind, M_bind. by rewrite Hgen.
Qed.

Lemma prompt_path_raises_witness :
  returned (generate_and_extract_prompts sample_decode "http://api" [] "store"
              "prompts.zip" 5) (set_net (always server_error) world0)
  = Raise (HTTPError 500)
  /\ _extract_prompts_from_zip sample_decode "prompts.zip"
       (set_fs (FS.Dir [("prompts.zip", FS.File "not an archive")]) world0)
     = (Raise BadZipFile,
        set_fs (FS.Dir [("prompts.zip", FS.File "not an archive")]) world0)
  /\ _extract_prompts_from_zip damaged_decode "prompts.zip" damaged_world
     = (Raise ZlibError,
        set_fs (FS.Dir [("prompts.zip", FS.File "PK-damaged");
                        ("prompts", FS.Dir [("summary.txt", FS.File "summaries");
                                            ("entity_x.txt", FS.File "enti")])])
          world0)
  /\ returned (generate_and_extract_prompts sample_decode "http://api" [] "store"
                 "prompts.zip" 5)
       (set_net (always (Response 200 (Raise JSONDecodeError) ["not an "; "archive"] None))
          world0)
     = Raise BadZipFile.
Proof.
  split; [|split; [|split]].
  - apply (proj1 (prompt_path_raises sample_decode "http://api" [] "store"
                    "prompts.zip" 5 (set_net (always server_error) world0))
             server_error).
    + reflexivity.
    + unfold error_status. simpl. lia.
  - apply (proj1 (proj2 (prompt_path_raises sample_decode "" [] ""
                    "prompts.zip" 0
                    (set_fs (FS.Dir [("prompts.zip", FS.File "not an archive")]) world0)))
             "not an archive"); reflexivity.
  - apply (proj1 (proj2 (proj2 (proj2
             (prompt_path_raises damaged_decode "" [] "" "prompts.zip" 0 damaged_world))))
             "PK-damaged" [("prompts/summary.txt", Stored "summaries")]
             ("prompts/entity_x.txt", Damaged "enti" ZlibError)
             [("prompts/community_y.txt", Stored "communities")]
             (set_fs (FS.Dir [("prompts.zip", FS.File "PK-damaged");
                              ("prompts", FS.Dir [("summary.txt", FS.File "summaries")])])
                world0));
      reflexivity.
  - unfold returned.
    erewrite (proj2 (proj2 (proj2 (proj2
                (prompt_path_raises sample_decode "http://api" [] "store"
                    "prompts.zip" 5
                    (set_net (always (Response 200 (Raise JSONDecodeError)
                                        ["not an "; "archive"] None)) world0)))))
                _ BadZipFile); reflexivity.
Defined.

(** C7, as stated, fails: the statuses 300 and 304 are no 2xx statuses, yet
    the download step raises nothing. It writes the body of the 300 response
    to the zip file, and leaves an empty zip file for the 304 response, which
    has no body. *)
Lemma generate_prompts_not_modified :
  status_code multiple_choices = 300
  /\ returned (_generate_prompts "http://api" [] "store" "prompts.zip" 5)
       (set_net (always multiple_choices) world0) = Ok tt
  /\ FS.read ["prompts.zip"]
       (fs (after (_generate_prompts "http://api" [] "store" "prompts.zip" 5)
              (set_net (always multiple_choices) world0)))
     = Ok "<html>choices</html>"
  /\ status_code not_modified = 304
  /\ returned (_generate_prompts "http://api" [] "store" "prompts.zip" 5)
       (set_net (always not_modified) world0) = Ok tt
  /\ FS.read ["prompts.zip"]
       (fs (after (_generate_prompts "http://api" [] "store" "prompts.zip" 5)
              (set_net (always not_modified) world0)))
     = Ok "".
Proof. repeat split. Qed.

(** ** Round trip through an archive *)

Lemma child_set_child (c : string) (x : FS.node) (es : list (string * FS.node)) :
  FS.child c (FS.set_child c x es) = Some x.
Proof.
  induction es as [|[c' y] es IH]; simpl.
  - by rewrite String.eqb_refl.
  - destruct (String.eqb c c') eqn:E; simpl; rewrite ?String.eqb_refl, ?E; done.
Qed.

Lemma set_child_twice (c : string) (x y : FS.node) (es : list (string * FS.node)) :
  FS.set_child c x (FS.set_child c y es) = FS.set_child c x es.
Proof.
  induction es as [|[c' z] es IH]; simpl.
  - by rewrite String.eqb_refl.
  - destruct (String.eqb c c') eqn:E; simpl; rewrite ?String.eqb_refl, ?E, ?IH; done.
Qed.






(** * Further properties *)

(** ** What the wrappers return, display and send *)

Lemma wrapper_body_run (c : wrapper_call) (w : world) :
  wrapper_body c w
  = (Ok (fst (reported c (net w (sent w) (request_of c)))),
     sent_and_shown (request_of c)
       (snd (reported c (net w (sent w) (request_of c)))) w).
Proof.
  destruct c; simpl;
    unfold get_storage_container_names, get_entity_data, get_indexes_data_body,
      query_index, get_source_entity, requests_get, requests_post, query_request,
      reported, sent_and_shown;
    unfold try_except, mbind, M_bind, requests_send;
    (destruct (net w (sent w) _) as [r|e]; simpl; [|reflexivity]);
    (destruct (status_code r =? 200); simpl; unfold lift;
     destruct (json_ r); simpl; rewrite ?app_nil_r; destruct w; reflexivity).
Qed.

Lemma call_run (c : wrapper_call) (w : world) :
  reaches_network c w ->
  returned (call c) w = Ok (fst (reported c (net w (sent w) (request_of c))))
  /\ session_state (after (call c) w) = session_state w
  /\ st_errors (after (call c) w)
     = st_errors w ++ snd (reported c (net w (sent w) (request_of c)))
  /\ stdout (after (call c) w) = stdout w
  /\ fs (after (call c) w) = fs w
  /\ sent (after (call c) w) = sent w ++ [request_of c].
Proof.
  intros Hnet. pose proof (wrapper_body_run c w) as H.
  destruct c; try (unfold returned, after; simpl in *; rewrite H; by repeat split).
  simpl in *. unfold returned, after, get_indexes_data, cache_data.
  rewrite Hnet, H. by repeat split.
Qed.

(** X1. On a response with status 200 whose body parses as JSON, each of
    the five wrappers returns the parsed value and displays no message. *)
Theorem wrapper_returns_parsed_json (c : wrapper_call) (w : world)
  (r : response) (v : pyval) :
  reaches_network c w ->
  net w (sent w) (request_of c) = Responds r ->
  status_code r = 200 ->
  json_ r = Ok v ->
  returned (call c) w = Ok v /\ st_errors (after (call c) w) = st_errors w.
Proof.
  intros Hnet Hr Hs Hj. destruct (call_run c w Hnet) as (Hret & _ & Herr & _).
  rewrite Hret, Herr, Hr. unfold reported. rewrite Hs, Hj. simpl.
  by rewrite app_nil_r.
Qed.

Lemma wrapper_returns_parsed_json_witness :
  returned (call (StorageContainerNames "http://api" []))
    (set_net (always (Response 200 (Ok (PDict [("storage_name", PList [PStr "docs"])]))
                        [] None)) world0)
  = Ok (PDict [("storage_name", PList [PStr "docs"])])
  /\ st_errors (after (call (StorageContainerNames "http://api" []))
       (set_net (always (Response 200 (Ok (PDict [("storage_name", PList [PStr "docs"])]))
                           [] None)) world0))
     = [].
Proof.
  apply (wrapper_returns_parsed_json (StorageContainerNames "http://api" [])
           (set_net (always (Response 200
              (Ok (PDict [("storage_name", PList [PStr "docs"])])) [] None)) world0)
           (Response 200 (Ok (PDict [("storage_name", PList [PStr "docs"])])) [] None));
    first [exact I | reflexivity].
Defined.

(** X2. A response with status 200 whose body does not parse is swallowed
    as well: the wrapper returns [None] and displays the decoding error. *)
Theorem wrapper_swallows_unparsable_body (c : wrapper_call) (w : world)
  (r : response) (e : exn) :
  reaches_network c w ->
  net w (sent w) (request_of c) = Responds r ->
  status_code r = 200 ->
  json_ r = Raise e ->
  returned (call c) w = Ok PNone
  /\ st_errors (after (call c) w) = st_errors w ++ [exception_message e].
Proof.
  intros Hnet Hr Hs Hj. destruct (call_run c w Hnet) as (Hret & _ & Herr & _).
  rewrite Hret, Herr, Hr. unfold reported. rewrite Hs, Hj. by simpl.
Qed.

Lemma wrapper_swallows_unparsable_body_witness :
  returned (call (EntityData "http://api" []))
    (set_net (always (Response 200 (Raise JSONDecodeError) ["<html>"] None)) world0)
  = Ok PNone
  /\ st_errors (after (call (EntityData "http://api" []))
       (set_net (always (Response 200 (Raise JSONDecodeError) ["<html>"] None)) world0))
     = [] ++ [exception_message JSONDecodeError].
Proof.
  apply (wrapper_swallows_unparsable_body (EntityData "http://api" [])
           (set_net (always (Response 200 (Raise JSONDecodeError) ["<html>"] None)) world0)
           (Response 200 (Raise JSONDecodeError) ["<html>"] None) JSONDecodeError);
    first [exact I | reflexivity].
Defined.

(** X3. Every failed call displays exactly one message: the exception for
    a transport failure, and for the three listing wrappers the status of a
    response that is not 200. *)
Theorem wrapper_failure_shows_one_message (c : wrapper_call) (w : world) :
  reaches_network c w ->
  failure (net w (sent w) (request_of c)) ->
  (exists m, st_errors (after (call c) w) = st_errors w ++ [m])
  /\ (forall e, net w (sent w) (request_of c) = Fails e ->
        st_errors (after (call c) w) = st_errors w ++ [exception_message e])
  /\ (forall r, net w (sent w) (request_of c) = Responds r -> reports_body c = false ->
        st_errors (after (call c) w) = st_errors w ++ [status_message r]).
Proof.
  intros Hnet Hfail. destruct (call_run c w Hnet) as (_ & _ & Herr & _).
  rewrite Herr. clear Herr. split; [|split].
  - destruct (net w (sent w) (request_of c)) as [r|e]; simpl in *; [|eauto].
    destruct (status_code r =? 200) eqn:Hs; [apply Z.eqb_eq in Hs; contradiction|].
    destruct (reports_body c); [destruct (json_ r)|]; eauto.
  - intros e He. by rewrite He.
  - intros r Hr Hb. rewrite Hr in *. simpl in *.
    destruct (status_code r =? 200) eqn:Hs; [apply Z.eqb_eq in Hs; contradiction|].
    by rewrite Hb.
Qed.

Lemma wrapper_failure_shows_one_message_witness :
  st_errors (after (call (StorageContainerNames "http://api" [])) world0)
  = [] ++ [exception_message (RequestException "connection refused")]
  /\ st_errors (after (call (EntityData "http://api" []))
                  (set_net (always server_error) world0))
     = [] ++ [status_message server_error].
Proof.
  split.
  - apply (proj1 (proj2 (wrapper_failure_shows_one_message
             (StorageContainerNames "http://api" []) world0 I I))
             (RequestException "connection refused")).
    reflexivity.
  - refine (proj2 (proj2 (wrapper_failure_shows_one_message
             (EntityData "http://api" []) (set_net (always server_error) world0) I _))
             server_error _ _); try reflexivity.
    simpl. discriminate.
Defined.

(** X4. [query_index] and [get_source_entity] put the body of a failed
    response into their message, and parse it for that: when the body of a
    response that is not 200 is not JSON, the decoding error is displayed
    and the status is not. *)
Theorem body_reporting_wrapper_hides_status (c : wrapper_call) (w : world)
  (r : response) :
  reports_body c = true ->
  net w (sent w) (request_of c) = Responds r ->
  status_code r <> 200 ->
  (forall body, json_ r = Ok body ->
     st_errors (after (call c) w)
     = st_errors w ++ [[Lit "Error: "; FInt (status_code r); Lit " "; FVal body]])
  /\ (forall e, json_ r = Raise e ->
        st_errors (after (call c) w) = st_errors w ++ [exception_message e]).
Proof.
  intros Hb Hr Hs.
  assert (Hnet : reaches_network c w) by (destruct c; try exact I; discriminate).
  destruct (call_run c w Hnet) as (_ & _ & Herr & _). rewrite Herr, Hr. simpl.
  destruct (status_code r =? 200) eqn:E; [apply Z.eqb_eq in E; contradiction|].
  rewrite Hb. split; intros x ->; reflexivity.
Qed.

Lemma body_reporting_wrapper_hides_status_witness :
  st_errors (after (call (SourceEntity "idx" "42" "http://api" []))
               (set_net (always (Response 502 (Raise JSONDecodeError) [] None)) world0))
  = [] ++ [exception_message JSONDecodeError].
Proof.
  refine (proj2 (body_reporting_wrapper_hides_status
            (SourceEntity "idx" "42" "http://api" [])
            (set_net (always (Response 502 (Raise JSONDecodeError) [] None)) world0)
            (Response 502 (Raise JSONDecodeError) [] None) _ _ _) JSONDecodeError _);
    try reflexivity.
  simpl. discriminate.
Defined.

(** X5. A wrapper call that reaches the network sends exactly one request,
    its own, whatever the outcome, and leaves the session state, the
    standard output and the file system as they were. *)
Theorem wrapper_sends_one_request (c : wrapper_call) (w : world) :
  reaches_network c w ->
  sent (after (call c) w) = sent w ++ [request_of c]
  /\ session_state (after (call c) w) = session_state w
  /\ stdout (after (call c) w) = stdout w
  /\ fs (after (call c) w) = fs w.
Proof.
  intros Hnet. destruct (call_run c w Hnet) as (_ & Hss & _ & Hout & Hfs & Hsent).
  by repeat split.
Qed.

Lemma wrapper_sends_one_request_witness :
  sent (after (call (IndexesData "http://api" [])) world0)
  = [] ++ [request_of (IndexesData "http://api" [])].
Proof.
  apply (proj1 (wrapper_sends_one_request (IndexesData "http://api" []) world0
                  (eq_refl : reaches_network (IndexesData "http://api" []) world0))).
Defined.

(** ** The cache of the index listing *)

Lemma cache_lookup_app_miss k entry
  (c : list ((string * headers) * (pyval * list message))) :
  cache_lookup k c = None -> cache_lookup k (c ++ [(k, entry)]) = Some entry.
Proof.
  induction c as [|[k' v] c IH]; simpl.
  - intros _. by rewrite bool_decide_eq_true_2.
  - destruct (bool_decide (k = k')); [discriminate | exact IH].
Qed.

Lemma get_indexes_data_run (api_url : string) (hdrs : headers) (w : world) :
  exists v msgs,
    returned (get_indexes_data api_url hdrs) w = Ok v
    /\ cache_lookup (api_url, hdrs) (data_cache (after (get_indexes_data api_url hdrs) w))
       = Some (v, msgs).
Proof.
  unfold returned, after, get_indexes_data, cache_data.
  destruct (cache_lookup (api_url, hdrs) (data_cache w)) as [[v msgs]|] eqn:Hc.
  - exists v, msgs. simpl. by rewrite Hc.
  - pose proof (wrapper_body_run (IndexesData api_url hdrs) w) as H. simpl in H.
    rewrite H. simpl. eexists _, _. split; [reflexivity|].
    by apply cache_lookup_app_miss.
Qed.

(** X6. The index listing is remembered. After a call of
    [get_indexes_data], a further call with the same arguments returns the
    same value and sends no request, whatever the service would answer by
    then; this holds for the null result of a failed call as for any other. *)
Theorem get_indexes_data_remembers (api_url : string) (hdrs : headers) (w : world)
  (later : list request -> request -> outcome) :
  exists v,
    returned (get_indexes_data api_url hdrs) w = Ok v
    /\ returned (get_indexes_data api_url hdrs)
         (set_net later (after (get_indexes_data api_url hdrs) w)) = Ok v
    /\ sent (after (get_indexes_data api_url hdrs)
               (set_net later (after (get_indexes_data api_url hdrs) w)))
       = sent (after (get_indexes_data api_url hdrs) w).
Proof.
  destruct (get_indexes_data_run api_url hdrs w) as (v & msgs & Hret & Hc).
  exists v. split; [exact Hret|].
  set (w1 := after (get_indexes_data api_url hdrs) w) in *. clearbody w1.
  unfold returned, after, get_indexes_data, cache_data.
  change (data_cache (set_net later w1)) with (data_cache w1).
  rewrite Hc. split; reflexivity.
Qed.

(** ** The query type *)

Lemma lower_ascii_idem (c : ascii) : lower_ascii (lower_ascii c) = lower_ascii c.
Proof. destruct c as [[] [] [] [] [] [] [] []]; reflexivity. Qed.

Lemma lower_idem (s : string) : lower (lower s) = lower s.
Proof. induction s as [|c s IH]; simpl; [reflexivity|]. by rewrite lower_ascii_idem, IH. Qed.

(** X7. The query type is case-insensitive: [query_index] behaves on a
    type exactly as on its lower-cased form, in what it sends, returns and
    displays. *)
Theorem query_index_type_case_insensitive (index_name : list string)
  (query_type query api_url : string) (hdrs : headers) (w : world) :
  query_index index_name query_type query api_url hdrs w
  = query_index index_name (lower query_type) query api_url hdrs w.
Proof. unfold query_index. by rewrite lower_idem. Qed.

(** ** Submitting an index-build job *)

Lemma build_index_raise api_url hdrs storage_name index_name e c s
  (x : exn) (w : world) :
  returned (build_index_prompt_files e c s) w = Raise x ->
  build_index api_url hdrs storage_name index_name e c s w = (Raise x, w).
Proof.
  intros H. unfold returned, build_index_prompt_files in H.
  unfold build_index, requests_post. cbv zeta.
  unfold mbind, M_bind in *.
  rewrite (attach_prompt_run _ e []) in *.
  destruct (returned (attach_prompt _ e []) w) as [f1|];
    [|cbn in H; by inversion H].
  cbn beta iota in *. rewrite (attach_prompt_run _ c f1) in *.
  destruct (returned (attach_prompt _ c f1) w) as [f2|];
    [|cbn in H; by inversion H].
  cbn beta iota in *. rewrite (attach_prompt_run _ s f2) in *.
  destruct (returned (attach_prompt _ s f2) w) as [f3|];
    [discriminate | cbn in H; by inversion H].
Qed.

(** X8. [build_index] changes nothing but the log of requests. When a
    prompt file cannot be opened it raises the error of [open] and sends
    nothing; otherwise it sends exactly one request, the POST with the
    attached prompt files, whether the service answers or not. *)
Theorem build_index_sends_at_most_one (api_url : string) (hdrs : headers)
  (storage_name index_name : string) (e c s : prompt_source) (w : world) :
  (forall x, returned (build_index_prompt_files e c s) w = Raise x ->
     build_index api_url hdrs storage_name index_name e c s w = (Raise x, w))
  /\ (forall files, returned (build_index_prompt_files e c s) w = Ok files ->
        after (build_index api_url hdrs storage_name index_name e c s) w
        = set_sent
            (fun l => l ++ [build_index_request api_url hdrs storage_name index_name files])
            w).
Proof.
  split.
  - intros x. apply build_index_raise.
  - intros files H. unfold after.
    rewrite (build_index_run _ _ _ _ _ _ _ files w H). unfold requests_send.
    destruct (net w (sent w) _); reflexivity.
Qed.

Lemma build_index_sends_at_most_one_witness :
  build_index "http://api" [] "store" "idx"
    NoPrompt (PromptPath "prompts/missing.txt") NoPrompt world0
  = (Raise (FileNotFoundError ["prompts"; "missing.txt"]), world0)
  /\ after (build_index "http://api" [] "store" "idx"
              NoPrompt NoPrompt (PromptStringIO "summarise")) world0
     = set_sent
         (fun l => l ++ [build_index_request "http://api" [] "store" "idx"
                           [("summarize_descriptions_prompt", "summarise")]])
         world0.
Proof.
  split.
  - apply (proj1 (build_index_sends_at_most_one "http://api" [] "store" "idx"
                    NoPrompt (PromptPath "prompts/missing.txt") NoPrompt world0)).
    reflexivity.
  - apply (proj2 (build_index_sends_at_most_one "http://api" [] "store" "idx"
                    NoPrompt NoPrompt (PromptStringIO "summarise") world0)).
    reflexivity.
Defined.

(** X9. Prompt arguments that name no file never make [build_index] fail
    before it sends: [None] and the empty path contribute nothing, and every
    buffer, the empty one included, is attached under its form name, in the
    order entity, community, summarize. *)
Theorem build_index_attaches_buffers (api_url : string) (hdrs : headers)
  (storage_name index_name : string) (e c s : prompt_source) (w : world) :
  names_no_file e -> names_no_file c -> names_no_file s ->
  build_index api_url hdrs storage_name index_name e c s w
  = requests_send
      (build_index_request api_url hdrs storage_name index_name
         (buffer_part "entity_extraction_prompt" e
          ++ buffer_part "community_report_prompt" c
          ++ buffer_part "summarize_descriptions_prompt" s)) w.
Proof.
  intros He Hc Hs. apply build_index_run.
  destruct e as [|pe|te], c as [|pc|tc], s as [|ps|ts]; simpl in *; subst;
    reflexivity.
Qed.

Lemma build_index_attaches_buffers_witness :
  build_index "http://api" [] "store" "idx"
    (PromptStringIO "") (PromptPath "") NoPrompt world0
  = requests_send
      (build_index_request "http://api" [] "store" "idx"
         [("entity_extraction_prompt", "")]) world0.
Proof.
  apply (build_index_attaches_buffers "http://api" [] "store" "idx"
           (PromptStringIO "") (PromptPath "") NoPrompt world0);
    first [exact I | reflexivity].
Defined.

(** ** Writing the downloaded archive *)

Lemma put_walk (whole whole' p : list string) (data : string) (root root' : FS.node) :
  FS.put whole p data root = Ok root' -> FS.walk whole' p root' = Ok (FS.File data).
Proof.
  revert root root'. induction p as [|c p IH]; intros root root' H.
  - destruct root; simpl in H; discriminate.
  - destruct root as [|es]; simpl in H; [discriminate|].
    destruct p as [|c' p].
    + assert (root' = FS.Dir (FS.set_child c (FS.File data) es)) as ->.
      { destruct (FS.child c es) as [[]|]; congruence. }
      simpl. by rewrite child_set_child.
    + destruct (FS.child c es) as [n'|]; [|discriminate].
      destruct (FS.put whole (c' :: p) data n') as [n''|] eqn:Hput; [|discriminate].
      inversion H; subst. cbn [FS.walk]. rewrite child_set_child.
      apply (IH n' n'' Hput).
Qed.

Lemma put_read (whole p : list string) (data : string) (root root' : FS.node) :
  FS.put whole p data root = Ok root' -> FS.read p root' = Ok data.
Proof. intros H. unfold FS.read. by rewrite (put_walk whole p p data root root' H). Qed.

Lemma put_below (whole : list string) (c c' : string) (p : list string)
  (data : string) (es : list (string * FS.node)) :
  FS.put whole (c :: c' :: p) data (FS.Dir es)
  = match FS.child c es with
    | Some n' =>
        match FS.put whole (c' :: p) data n' with
        | Ok n'' => Ok (FS.Dir (FS.set_child c n'' es))
        | Raise e => Raise e
        end
    | None => Raise (FileNotFoundError whole)
    end.
Proof. reflexivity. Qed.

(** Where a file was put, a file can be put again. *)
Lemma put_again (whole whole' p : list string) (data data' : string)
  (root root' : FS.node) :
  FS.put whole p data root = Ok root' ->
  exists root'', FS.put whole' p data' root' = Ok root''.
Proof.
  revert root root'. induction p as [|c p IH]; intros root root' H.
  - destruct root; simpl in H; discriminate.
  - destruct root as [|es]; simpl in H; [discriminate|].
    destruct p as [|c' p].
    + assert (root' = FS.Dir (FS.set_child c (FS.File data) es)) as ->.
      { destruct (FS.child c es) as [[]|]; congruence. }
      simpl. rewrite child_set_child. eauto.
    + destruct (FS.child c es) as [n'|]; [|discriminate].
      destruct (FS.put whole (c' :: p) data n') as [n''|] eqn:Hput; [|discriminate].
      inversion H; subst. destruct (IH n' n'' Hput) as [m Hm].
      rewrite put_below, child_set_child, Hm. eauto.
Qed.

(** The second of two writes to a path is the one that counts. *)
Lemma put_twice (whole whole' p : list string) (data data' : string)
  (root root' : FS.node) :
  FS.put whole p data root = Ok root' ->
  FS.put whole' p data' root' = FS.put whole' p data' root.
Proof.
  revert root root'. induction p as [|c p IH]; intros root root' H.
  - destruct root; simpl in H; discriminate.
  - destruct root as [|es]; simpl in H; [discriminate|].
    destruct p as [|c' p].
    + assert (root' = FS.Dir (FS.set_child c (FS.File data) es)
              /\ forall sub, FS.child c es <> Some (FS.Dir sub)) as [-> Hc].
      { destruct (FS.child c es) as [[]|]; split; congruence. }
      simpl. rewrite child_set_child, set_child_twice.
      destruct (FS.child c es) as [[|sub]|]; try reflexivity.
      by destruct (Hc sub).
    + destruct (FS.child c es) as [n'|] eqn:Hn; [|discriminate].
      destruct (FS.put whole (c' :: p) data n') as [n''|] eqn:Hput; [|discriminate].
      inversion H; subst.
      rewrite !put_below, child_set_child, Hn, (IH n' n'' Hput).
      destruct (FS.put whole' (c' :: p) data' n'); [|reflexivity].
      by rewrite set_child_twice.
Qed.

Lemma append_empty (s : string) : s +:+ "" = s.
Proof.
  induction s as [|c s IH]; [reflexivity|].
  change (String c s +:+ "") with (String c (s +:+ "")). by rewrite IH.
Qed.

Lemma append_assoc (a b c : string) : (a +:+ b) +:+ c = a +:+ (b +:+ c).
Proof.
  induction a as [|x a IH]; [reflexivity|].
  change ((String x a +:+ b) +:+ c) with (String x ((a +:+ b) +:+ c)).
  change (String x a +:+ (b +:+ c)) with (String x (a +:+ (b +:+ c))).
  by rewrite IH.
Qed.

Lemma set_fs_same (w : world) : set_fs (fs w) w = w.
Proof. by destruct w. Qed.

Lemma write_run (p : list string) (chunk acc : string) (r1 : FS.node) (w : world) :
  FS.read p (fs w) = Ok acc ->
  FS.put p p (acc +:+ chunk) (fs w) = Ok r1 ->
  write p chunk w = (Ok tt, set_fs r1 w).
Proof.
  intros Hread Hput. unfold write, mbind, M_bind, fs_read, fs_update.
  by rewrite Hread, Hput.
Qed.

(** Writing chunk after chunk to an open file appends them to it: the
    file ends as if the whole had been put at once. *)
Lemma write_chunks (p : list string) (chunks : list string) :
  forall (w : world) (acc : string) (r0 : FS.node),
  FS.put p p acc r0 = Ok (fs w) ->
  exists root',
    for_each chunks (write p) w = (Ok tt, set_fs root' w)
    /\ FS.put p p (acc +:+ body_of chunks) r0 = Ok root'.
Proof.
  induction chunks as [|chunk chunks IH]; intros w acc r0 Hput.
  - exists (fs w). simpl. rewrite set_fs_same, append_empty.
    split; [reflexivity | assumption].
  - destruct (put_again p p p acc (acc +:+ chunk) r0 (fs w) Hput) as [r1 Hr1].
    assert (Hr1' : FS.put p p (acc +:+ chunk) r0 = Ok (fs (set_fs r1 w))).
    { rewrite <- (put_twice p p p acc (acc +:+ chunk) r0 (fs w) Hput). exact Hr1. }
    destruct (IH (set_fs r1 w) (acc +:+ chunk) r0 Hr1') as (root' & Hrun & Hroot').
    exists root'. split.
    + simpl. unfold mbind at 1, M_bind at 1.
      rewrite (write_run p chunk acc r1 w (put_read p p acc r0 (fs w) Hput) Hr1).
      rewrite Hrun. reflexivity.
    + rewrite <- Hroot'. simpl. by rewrite append_assoc.
Qed.

(** The download on a response that [raise_for_status] lets pass, where
    the zip file can be opened for writing. *)
Lemma generate_prompts_run api_url hdrs storage_name zip_file_name limit
  (r : response) (root0 : FS.node) (w : world) :
  net w (sent w) (prompts_request api_url hdrs storage_name limit) = Responds r ->
  ~ error_status r ->
  FS.put (FS.resolve zip_file_name) (FS.resolve zip_file_name) "" (fs w) = Ok root0 ->
  exists root',
    FS.put (FS.resolve zip_file_name) (FS.resolve zip_file_name)
      (body_of (chunks r)) (fs w) = Ok root'
    /\ _generate_prompts api_url hdrs storage_name zip_file_name limit w
       = (match stream_error r with Some e => Raise e | None => Ok tt end,
          set_fs root'
            (set_sent (fun l => l ++ [prompts_request api_url hdrs storage_name limit]) w)).
Proof.
  intros Hr Hok Hopen.
  pose (rq := prompts_request api_url hdrs storage_name limit).
  pose (w1 := set_sent (fun l => l ++ [rq]) w).
  destruct (write_chunks (FS.resolve zip_file_name) (chunks r) (set_fs root0 w1) "" (fs w))
    as (root' & Hrun & Hroot'); [exact Hopen|].
  exists root'. split; [exact Hroot'|].
  unfold _generate_prompts, requests_get. cbv zeta.
  unfold mbind at 1, M_bind at 1.
  change (Request GET _ _ _ _ _ _) with rq.
  rewrite (requests_send_responds rq r w Hr). fold w1.
  unfold mbind at 1, M_bind at 1, raise_for_status.
  assert ((400 <=? status_code r) && (status_code r <? 600) = false) as ->.
  { apply not_true_is_false. intros H. apply andb_prop in H as [H1 H2].
    apply Hok. split; [by apply Z.leb_le | by apply Z.ltb_lt]. }
  cbn [mret M_ret]. unfold mbind at 1, M_bind at 1, open_wb.
  unfold mbind at 1, M_bind at 1, fs_update at 1.
  change (fs w1) with (fs w). rewrite Hopen. cbn [mret M_ret].
  unfold mbind at 1, M_bind at 1.
  change (fun chunk : string => write (FS.resolve zip_file_name) chunk)
    with (write (FS.resolve zip_file_name)).
  change (set_fs root0 (set_sent _ w)) with (set_fs root0 w1).
  rewrite Hrun. destruct (stream_error r); reflexivity.
Qed.

(** X10. When the service answers the prompt download with a status that
    is no client or server error, and the zip file can be opened for
    writing, the file ends up holding the body exactly as it was received,
    chunk after chunk, in place of whatever it held. If the stream breaks
    off, the chunks received so far are in the file and the transport error
    is raised. *)
Theorem generate_prompts_writes_body (api_url : string) (hdrs : headers)
  (storage_name zip_file_name : string) (limit : Z)
  (r : response) (root0 : FS.node) (w : world) :
  net w (sent w) (prompts_request api_url hdrs storage_name limit) = Responds r ->
  ~ error_status r ->
  FS.put (FS.resolve zip_file_name) (FS.resolve zip_file_name) "" (fs w) = Ok root0 ->
  FS.read (FS.resolve zip_file_name)
    (fs (after (_generate_prompts api_url hdrs storage_name zip_file_name limit) w))
  = Ok (body_of (chunks r))
  /\ returned (_generate_prompts api_url hdrs storage_name zip_file_name limit) w
     = match stream_error r with Some e => Raise e | None => Ok tt end.
Proof.
  intros Hr Hok Hopen.
  destruct (generate_prompts_run api_url hdrs storage_name zip_file_name limit
              r root0 w Hr Hok Hopen) as (root' & Hroot' & Hrun).
  unfold after, returned. rewrite Hrun. split; [|reflexivity].
  simpl. by apply put_read with (FS.resolve zip_file_name) (fs w).
Qed.

Lemma generate_prompts_writes_body_witness :
  FS.read ["prompts.zip"]
    (fs (after (_generate_prompts "http://api" [] "store" "prompts.zip" 5)
           (set_net (always (Response 200 (Raise JSONDecodeError) ["PK-"; "sam"]
                               (Some (RequestException "connection reset"))))
              downloaded_world)))
  = Ok "PK-sam"
  /\ returned (_generate_prompts "http://api" [] "store" "prompts.zip" 5)
       (set_net (always (Response 200 (Raise JSONDecodeError) ["PK-"; "sam"]
                           (Some (RequestException "connection reset"))))
          downloaded_world)
     = Raise (RequestException "connection reset").
Proof.
  apply (generate_prompts_writes_body "http://api" [] "store" "prompts.zip" 5
           (Response 200 (Raise JSONDecodeError) ["PK-"; "sam"]
              (Some (RequestException "connection reset")))
           (FS.Dir [("prompts.zip", FS.File "")])).
  - reflexivity.
  - unfold error_status. simpl. lia.
  - reflexivity.
Defined.

(** ** What loading the prompts depends on *)

Lemma read_below (p : list string) (es : list (string * FS.node)) (root : FS.node)
  (n : string) :
  FS.walk p p root = Ok (FS.Dir es) ->
  FS.read (p ++ [n]) root
  = match FS.child n es with
    | Some (FS.File data) => Ok data
    | Some (FS.Dir _) => Raise (IsADirectoryError (p ++ [n]))
    | None => Raise (FileNotFoundError (p ++ [n]))
    end.
Proof.
  intros Hp. unfold FS.read. rewrite (walk_snoc p _ p n root es Hp).
  destruct (FS.child n es) as [[]|]; reflexivity.
Qed.

Lemma child_filter (f : string -> bool) (n : string) (es : list (string * FS.node)) :
  f n = true -> FS.child n (List.filter (fun e => f (fst e)) es) = FS.child n es.
Proof.
  intros Hn. induction es as [|[c x] es IH]; simpl; [reflexivity|].
  destruct (f c) eqn:Hc; simpl.
  - by rewrite IH.
  - destruct (String.eqb n c) eqn:E; [|exact IH].
    apply String.eqb_eq in E. congruence.
Qed.


(** Two directories that agree on the names a list of paths asks for give
    the same texts, or the same error. *)
Lemma comprehension_open_file_agree (p : list string)
  (es1 es2 : list (string * FS.node)) (names : list string) (w1 w2 : world) :
  FS.walk p p (fs w1) = Ok (FS.Dir es1) ->
  FS.walk p p (fs w2) = Ok (FS.Dir es2) ->
  (forall n, In n names -> FS.child n es1 = FS.child n es2) ->
  fst (comprehension open_file (map (fun n => p ++ [n]) names) w1)
  = fst (comprehension open_file (map (fun n => p ++ [n]) names) w2).
Proof.
  intros H1 H2. induction names as [|n names IH]; intros Hagree; [reflexivity|].
  cbn [map]. rewrite !comprehension_cons, !open_file_run.
  rewrite (read_below p es1 (fs w1) n H1), (read_below p es2 (fs w2) n H2).
  rewrite (Hagree n) by (by left).
  destruct (FS.child n es2) as [[data|]|]; try reflexivity.
  destruct (read_text data); [|reflexivity].
  pose proof (IH (fun m Hm => Hagree m (or_intror Hm))) as Hrest.
  destruct (comprehension open_file _ w1) as [[l1|e1] w1'],
           (comprehension open_file _ w2) as [[l2|e2] w2'];
    simpl in *; congruence.
Qed.

Lemma first_prompt_run (ps : list (list string)) (w : world) :
  (l ← comprehension open_file ps; lift (index0 l)) w
  = (first_of (fst (comprehension open_file ps w)), w).
Proof.
  unfold mbind, M_bind. pose proof (comprehension_open_file_after ps w) as H.
  destruct (comprehension open_file ps w) as [[l|e] w']; simpl in *; by subst.
Qed.

Lemma get_prompts_blocks (prompt_dir : string) (es : list (string * FS.node))
  (w : world) :
  FS.walk (FS.resolve prompt_dir) (FS.resolve prompt_dir) (fs w) = Ok (FS.Dir es) ->
  let texts prefix :=
    first_of (fst (comprehension open_file
                     (map (fun n => FS.resolve prompt_dir ++ [n])
                        (map fst (txt_matches prefix es))) w)) in
  returned (get_prompts prompt_dir) w
  = triple_of (texts "summ") (texts "entity") (texts "community").
Proof.
  intros Hp texts. subst texts. cbv beta. unfold returned, get_prompts.
  unfold mbind at 1, M_bind at 1, fs_iterdir at 1, FS.iterdir. rewrite Hp.
  rewrite !prompt_paths_matches, !map_map.
  unfold mbind at 1, M_bind at 1. rewrite first_prompt_run.
  destruct (first_of _) as [s|]; [|reflexivity].
  unfold mbind at 1, M_bind at 1. rewrite first_prompt_run.
  destruct (first_of _) as [e|]; [|reflexivity].
  unfold mbind at 1, M_bind at 1. rewrite first_prompt_run.
  destruct (first_of _) as [c|]; reflexivity.
Qed.

Lemma txt_matches_txt_entries (prefix : string) (es : list (string * FS.node)) :
  txt_matches prefix es
  = List.filter (fun e => startswith (fst e) prefix) (txt_entries es).
Proof. unfold txt_matches, txt_entries, is_prompt. by rewrite filter_filter_andb. Qed.

Lemma txt_matches_name (prefix n : string) (es : list (string * FS.node)) :
  In n (map fst (txt_matches prefix es)) -> endswith n ".txt" = true.
Proof.
  intros H. apply in_map_iff in H as ([n' x] & <- & H).
  apply filter_In in H as [_ H]. unfold is_prompt in H. simpl in *.
  by apply andb_prop in H as [H _].
Qed.

(** X11. [get_prompts] depends on the [.txt] entries of the prompt
    directory and on nothing else. In two worlds whose prompt directories
    hold the same [.txt] entries, whatever else these directories, the rest
    of the file system and the session hold, it returns the same triple or
    raises the same error. *)
Theorem get_prompts_depends_on_txt_entries (prompt_dir : string)
  (es1 es2 : list (string * FS.node)) (w1 w2 : world) :
  FS.walk (FS.resolve prompt_dir) (FS.resolve prompt_dir) (fs w1) = Ok (FS.Dir es1) ->
  FS.walk (FS.resolve prompt_dir) (FS.resolve prompt_dir) (fs w2) = Ok (FS.Dir es2) ->
  txt_entries es1 = txt_entries es2 ->
  returned (get_prompts prompt_dir) w1 = returned (get_prompts prompt_dir) w2.
Proof.
  intros H1 H2 Htxt.
  rewrite (get_prompts_blocks prompt_dir es1 w1 H1),
          (get_prompts_blocks prompt_dir es2 w2 H2). cbv zeta.
  assert (Hblock : forall prefix,
    fst (comprehension open_file
           (map (fun n => FS.resolve prompt_dir ++ [n])
              (map fst (txt_matches prefix es1))) w1)
    = fst (comprehension open_file
             (map (fun n => FS.resolve prompt_dir ++ [n])
                (map fst (txt_matches prefix es2))) w2)).
  { intros prefix.
    assert (txt_matches prefix es2 = txt_matches prefix es1) as ->
      by (by rewrite !txt_matches_txt_entries, Htxt).
    apply (comprehension_open_file_agree _ es1 es2); [assumption..|].
    intros n Hn. apply txt_matches_name in Hn.
    rewrite <- (child_filter (fun n => endswith n ".txt") n es1 Hn).
    rewrite <- (child_filter (fun n => endswith n ".txt") n es2 Hn).
    fold (txt_entries es1) (txt_entries es2). by rewrite Htxt. }
  by rewrite !Hblock.
Qed.

Lemma get_prompts_depends_on_txt_entries_witness :
  returned (get_prompts "./prompts") two_summaries_world
  = returned (get_prompts "./prompts")
      (set_session_state (insert "entity" (PStr "edited prompt"))
         (set_fs (FS.Dir [("prompts.zip", FS.File "PK-sample");
                          ("prompts",
                           FS.Dir (("summary.md", FS.File "a draft")
                                   :: two_summaries ++ [("entity_old.bak", FS.Dir [])]))])
            world0)).
Proof.
  apply (get_prompts_depends_on_txt_entries "./prompts" two_summaries
           (("summary.md", FS.File "a draft")
            :: two_summaries ++ [("entity_old.bak", FS.Dir [])]));
    reflexivity.
Defined.




(** X13. [get_prompts] only reads: whether it returns or raises, the
    world after it is the world before it. When the prompt directory cannot
    be listed, because it is missing or is a file, the error of the listing
    is what it raises. *)
Theorem get_prompts_only_reads (prompt_dir : string) (w : world) :
  after (get_prompts prompt_dir) w = w
  /\ (forall e,
        FS.walk (FS.resolve prompt_dir) (FS.resolve prompt_dir) (fs w) = Raise e ->
        returned (get_prompts prompt_dir) w = Raise e)
  /\ (forall data,
        FS.walk (FS.resolve prompt_dir) (FS.resolve prompt_dir) (fs w)
        = Ok (FS.File data) ->
        returned (get_prompts prompt_dir) w
        = Raise (NotADirectoryError (FS.resolve prompt_dir))).
Proof.
  split; [apply get_prompts_after|].
  split; intros x Hx; unfold returned, get_prompts;
    unfold mbind at 1, M_bind at 1, fs_iterdir at 1, FS.iterdir; by rewrite Hx.
Qed.

Lemma get_prompts_only_reads_witness :
  returned (get_prompts "./prompts") world0 = Raise (FileNotFoundError ["prompts"])
  /\ returned (get_prompts "prompts.zip") downloaded_world
     = Raise (NotADirectoryError ["prompts.zip"]).
Proof.
  split.
  - apply (proj1 (proj2 (get_prompts_only_reads "./prompts" world0))). reflexivity.
  - apply (proj2 (proj2 (get_prompts_only_reads "prompts.zip" downloaded_world))
             "PK-sample").
    reflexivity.
Defined.

(** ** Extraction into a directory that is already there *)

Lemma child_set_child_ne (c c' : string) (x : FS.node) (es : list (string * FS.node)) :
  c <> c' -> FS.child c (FS.set_child c' x es) = FS.child c es.
Proof.
  intros Hne. induction es as [|[d y] es IH]; simpl.
  - destruct (String.eqb c c') eqn:E; [apply String.eqb_eq in E; contradiction | done].
  - destruct (String.eqb c' d) eqn:E'; simpl.
    + apply String.eqb_eq in E'. subst d.
      destruct (String.eqb c c') eqn:E; [apply String.eqb_eq in E; contradiction | done].
    + destruct (String.eqb c d); [reflexivity | exact IH].
Qed.

Lemma extract_file_member_over (dir : string) (m : string * member_data) (f : string * string)
  (res es0 : list (string * FS.node)) (w : world) :
  fs w = FS.Dir res ->
  holds dir res es0 ->
  extracts_to dir m f ->
  (forall sub, FS.child (fst f) es0 <> Some (FS.Dir sub)) ->
  extract_member m w
  = (Ok tt, set_fs (FS.Dir (FS.set_child dir (FS.Dir (put_entry es0 f)) res)) w).
Proof.
  intros Hfs Hdir (Htarget & Hfile & Hdata) Hfree.
  unfold extract_member. rewrite Htarget, Hfile, Hdata. cbn [removelast].
  unfold mbind, M_bind, fs_update. rewrite Hfs. cbn [FS.makedirs].
  assert (default (FS.Dir []) (FS.child dir res) = FS.Dir es0) as ->.
  { destruct Hdir as [-> | [-> ->]]; reflexivity. }
  cbn [fs set_fs]. rewrite put_below, child_set_child. cbn [FS.put].
  unfold put_entry.
  destruct (FS.child (fst f) es0) as [[|sub]|] eqn:E;
    [| by destruct (Hfree sub) |]; by rewrite set_child_twice.
Qed.

Lemma child_put_entries_other (files : list (string * string)) :
  forall (es0 : list (string * FS.node)) (n : string),
  ~ In n (map fst files) ->
  FS.child n (foldl put_entry es0 files) = FS.child n es0.
Proof.
  induction files as [|g files IH]; intros es0 n Hn; [reflexivity|].
  simpl in *. rewrite IH by tauto. unfold put_entry.
  apply child_set_child_ne. intros ->. tauto.
Qed.

Lemma child_put_entries (files : list (string * string)) :
  forall (es0 : list (string * FS.node)) (f : string * string),
  NoDup (map fst files) -> In f files ->
  FS.child (fst f) (foldl put_entry es0 files) = Some (FS.File (snd f)).
Proof.
  induction files as [|g files IH]; intros es0 f Hnd Hin; [destruct Hin|].
  simpl in Hnd. apply NoDup_cons in Hnd as [Hg Hnd]. simpl.
  destruct Hin as [->|Hin]; [|by apply IH].
  rewrite child_put_entries_other.
  - unfold put_entry. apply child_set_child.
  - intros H. by apply Hg, list_elem_of_In.
Qed.

Lemma extract_members_over (dir : string) (members : list (string * member_data)) (files : list (string * string)) :
  Forall2 (extracts_to dir) members files ->
  forall (res es0 : list (string * FS.node)) (w : world),
  fs w = FS.Dir res ->
  FS.child dir res = Some (FS.Dir es0) ->
  no_folder_in_the_way files es0 ->
  exists res',
    for_each members extract_member w = (Ok tt, set_fs (FS.Dir res') w)
    /\ FS.child dir res' = Some (FS.Dir (foldl put_entry es0 files)).
Proof.
  induction 1 as [|m f members files Hm _ IH]; intros res es0 w Hfs Hdir Hfree.
  - exists res. split; [|assumption].
    simpl. unfold mret, M_ret. by rewrite <- Hfs, set_fs_same.
  - destruct (IH (FS.set_child dir (FS.Dir (put_entry es0 f)) res) (put_entry es0 f)
                (set_fs (FS.Dir (FS.set_child dir (FS.Dir (put_entry es0 f)) res)) w))
      as (res' & Hrun & Hres').
    + reflexivity.
    + apply child_set_child.
    + intros g sub Hg. unfold put_entry.
      destruct (String.eqb (fst g) (fst f)) eqn:E.
      * apply String.eqb_eq in E. rewrite E, child_set_child. discriminate.
      * rewrite child_set_child_ne; [apply Hfree; by right|].
        intros Heq. rewrite Heq, String.eqb_refl in E. discriminate.
    + exists res'. split; [|exact Hres'].
      simpl. unfold mbind, M_bind.
      rewrite (extract_file_member_over dir m f res es0 w Hfs (or_introl Hdir) Hm).
      * rewrite Hrun. reflexivity.
      * intros sub. apply Hfree. by left.
Qed.

Lemma extract_over (zip_decode : string -> option (list (string * member_data)))
  (zip_file_name dir data : string) (members : list (string * member_data)) (files : list (string * string))
  (res es0 : list (string * FS.node)) (w : world) :
  fs w = FS.Dir res ->
  holds dir res es0 ->
  FS.read (FS.resolve zip_file_name) (fs w) = Ok data ->
  zip_decode data = Some members ->
  Forall2 (extracts_to dir) members files ->
  no_folder_in_the_way files es0 ->
  exists res',
    _extract_prompts_from_zip zip_decode zip_file_name w = (Ok tt, set_fs (FS.Dir res') w)
    /\ (files <> [] -> FS.child dir res' = Some (FS.Dir (foldl put_entry es0 files)))
    /\ (files = [] -> res' = res).
Proof.
  intros Hfs Hdir Hread Hdecode Hall Hfree.
  unfold _extract_prompts_from_zip, mbind, M_bind, fs_read. rewrite Hread, Hdecode.
  destruct Hall as [|m f members files Hm Hall].
  - exists res. simpl. unfold mret, M_ret. rewrite <- Hfs, set_fs_same.
    by repeat split.
  - set (res1 := FS.set_child dir (FS.Dir (put_entry es0 f)) res).
    destruct (extract_members_over dir members files Hall res1 (put_entry es0 f)
                (set_fs (FS.Dir res1) w)) as (res' & Hrun & Hres').
    + reflexivity.
    + apply child_set_child.
    + intros g sub Hg. unfold put_entry.
      destruct (String.eqb (fst g) (fst f)) eqn:E.
      * apply String.eqb_eq in E. rewrite E, child_set_child. discriminate.
      * rewrite child_set_child_ne; [apply Hfree; by right|].
        intros Heq. rewrite Heq, String.eqb_refl in E. discriminate.
    + exists res'. split; [|split; [intros _; exact Hres' | discriminate]].
      simpl. unfold mbind, M_bind.
      rewrite (extract_file_member_over dir m f res es0 w Hfs Hdir Hm).
      * fold res1. rewrite Hrun. reflexivity.
      * intros sub. apply Hfree. by left.
Qed.

(** X14. Extraction writes over what is there and clears nothing. When the
    archive holds files of a directory, with distinct names none of which is
    taken by a sub-directory, extraction succeeds whether the directory is
    absent or already holds entries; afterwards every file of the archive
    reads back with its text, also where a file of that name was there
    before, and every earlier entry under another name is still in place. *)
Theorem extract_reads_back (zip_decode : string -> option (list (string * member_data)))
  (zip_file_name dir data : string) (members : list (string * member_data)) (files : list (string * string))
  (res es0 : list (string * FS.node)) (w : world) :
  fs w = FS.Dir res ->
  holds dir res es0 ->
  FS.read (FS.resolve zip_file_name) (fs w) = Ok data ->
  zip_decode data = Some members ->
  Forall2 (extracts_to dir) members files ->
  NoDup (map fst files) ->
  no_folder_in_the_way files es0 ->
  returned (_extract_prompts_from_zip zip_decode zip_file_name) w = Ok tt
  /\ (forall f, In f files ->
        FS.read [dir; fst f]
          (fs (after (_extract_prompts_from_zip zip_decode zip_file_name) w))
        = Ok (snd f))
  /\ (forall n x, FS.child n es0 = Some x -> ~ In n (map fst files) ->
        FS.walk [dir; n] [dir; n]
          (fs (after (_extract_prompts_from_zip zip_decode zip_file_name) w))
        = Ok x).
Proof.
  intros Hfs Hdir Hread Hdecode Hall Hnd Hfree.
  destruct (extract_over zip_decode zip_file_name dir data members files res es0 w
              Hfs Hdir Hread Hdecode Hall Hfree) as (res' & Hrun & Hfull & Hempty).
  unfold returned, after. rewrite Hrun. cbn [fst snd fs set_fs].
  split; [reflexivity|]. split.
  - intros f Hf.
    assert (Hne : files <> []) by (intros ->; destruct Hf).
    unfold FS.read. cbn [FS.walk]. rewrite (Hfull Hne).
    by rewrite (child_put_entries files es0 f Hnd Hf).
  - intros n x Hn Hout. destruct files as [|g files].
    + rewrite (Hempty eq_refl). cbn [FS.walk].
      destruct Hdir as [-> | [_ ->]]; [by rewrite Hn | discriminate].
    + cbn [FS.walk]. rewrite Hfull by discriminate.
      by rewrite (child_put_entries_other _ es0 n Hout), Hn.
Qed.

Lemma extract_reads_back_witness :
  returned (_extract_prompts_from_zip sample_decode "prompts.zip") regenerated_world
  = Ok tt
  /\ FS.read ["prompts"; "summary.txt"]
       (fs (after (_extract_prompts_from_zip sample_decode "prompts.zip")
              regenerated_world))
     = Ok "summaries"
  /\ FS.walk ["prompts"; "notes.md"] ["prompts"; "notes.md"]
       (fs (after (_extract_prompts_from_zip sample_decode "prompts.zip")
              regenerated_world))
     = Ok (FS.File "keep me").
Proof.
  destruct (extract_reads_back sample_decode "prompts.zip" "prompts" "PK-sample"
              sample_archive sample_files
              [("prompts", FS.Dir earlier_prompts); ("prompts.zip", FS.File "PK-sample")]
              earlier_prompts regenerated_world) as (Hret & Hnew & Hold).
  - reflexivity.
  - left. reflexivity.
  - reflexivity.
  - reflexivity.
  - repeat constructor.
  - apply (bool_decide_unpack _). vm_compute. exact I.
  - intros f sub Hf. simpl in Hf.
    repeat destruct Hf as [<- | Hf]; try discriminate. contradiction.
  - split; [exact Hret|]. split.
    + apply (Hnew ("summary.txt", "summaries")). simpl. tauto.
    + apply (Hold "notes.md"); [reflexivity|].
      simpl. intros H. repeat destruct H as [H | H]; try discriminate. contradiction.
Defined.

(** ** One file per prefix *)






(** ** Round trip through an archive, in general *)
























(** C4, as stated, fails: the loader reads in text mode. An archive with
    exactly one [.txt] file per prefix whose summary has a DOS line ending
    is extracted as it is, and the loader returns the summary with the line
    ending translated, which is not the content of the file; one whose
    summary is Latin-1 makes the loader raise. *)
Lemma prompts_round_trip_text_mode :
  returned (_extract_prompts_from_zip archives_decode "prompts.zip")
    (holding_zip "PK-dos") = Ok tt
  /\ FS.read ["prompts"; "summary.txt"]
       (fs (after (_extract_prompts_from_zip archives_decode "prompts.zip")
              (holding_zip "PK-dos")))
     = Ok (String "a" (String CR (String LF "b")))
  /\ returned (get_prompts "prompts")
       (after (_extract_prompts_from_zip archives_decode "prompts.zip")
          (holding_zip "PK-dos"))
     = Ok (String "a" (String LF "b"), "entities", "communities")
  /\ returned (get_prompts "prompts")
       (after (_extract_prompts_from_zip archives_decode "prompts.zip")
          (holding_zip "PK-dos"))
     <> Ok (String "a" (String CR (String LF "b")), "entities", "communities")
  /\ returned (_extract_prompts_from_zip archives_decode "prompts.zip")
       (holding_zip "PK-latin1") = Ok tt
  /\ returned (get_prompts "prompts")
       (after (_extract_prompts_from_zip archives_decode "prompts.zip")
          (holding_zip "PK-latin1"))
     = Raise UnicodeDecodeError.
Proof.
  repeat split; try (vm_compute; reflexivity).
  vm_compute. discriminate.
Qed.

(** ** From the download to the loaded prompts *)



(** ** Initialisation after an update *)

Lemma update_session_state_run (SUMMARY ENTITY COMMUNITY : string)
  (summarize entity_extract community : option string) (initial_setting : bool)
  (prompt_dir : string) (w : world) :
  update_session_state_prompt_vars SUMMARY ENTITY COMMUNITY
    summarize entity_extract community initial_setting prompt_dir w
  = match (if initial_setting then
             match returned (get_prompts prompt_dir) w with
             | Ok (s, e, c) => Ok (PStr s, PStr e, PStr c)
             | Raise x => Raise x
             end
           else Ok (optional_str summarize, optional_str entity_extract,
                    optional_str community)) with
    | Ok (a, b, c) =>
        (Ok tt,
         set_session_state
           (fun st => <[COMMUNITY := c]> (<[ENTITY := b]> (<[SUMMARY := a]> st))) w)
    | Raise x => (Raise x, w)
    end.
Proof.
  unfold update_session_state_prompt_vars. destruct initial_setting.
  - unfold mbind at 1, M_bind at 1, mbind at 1, M_bind at 1.
    rewrite get_prompts_run.
    destruct (returned (get_prompts prompt_dir) w) as [[[s e] c]|x]; [|reflexivity].
    cbn [mret M_ret]. apply store3.
  - unfold mbind at 1, M_bind at 1. cbn [mret M_ret]. apply store3.
Qed.

Lemma foldl_init_pure_present (l : list string) (s : gmap string pyval) :
  (forall k, In k l -> is_Some (s !! k)) -> foldl (flip init_pure) s l = s.
Proof.
  intros H. apply map_eq. intros k. rewrite foldl_init_pure_lookup.
  destruct (s !! k) eqn:Hk; [reflexivity|].
  rewrite bool_decide_eq_false_2; [reflexivity|].
  intros Hin. apply list_elem_of_In, H in Hin. rewrite Hk in Hin. by destruct Hin.
Qed.

(** X16. Initialisation respects an update. After a successful update,
    running [set_session_state_variables] leaves the three prompt entries as
    the update stored them, a stored [None] included; and when the fixed
    keys were all present before the update, it changes nothing at all. *)
Theorem initialisation_keeps_update (PromptKeys : list string)
  (SUMMARY ENTITY COMMUNITY : string)
  (summarize entity_extract community : option string) (initial_setting : bool)
  (prompt_dir : string) (w : world) :
  let update :=
    update_session_state_prompt_vars SUMMARY ENTITY COMMUNITY
      summarize entity_extract community initial_setting prompt_dir in
  returned update w = Ok tt ->
  (forall k, In k [SUMMARY; ENTITY; COMMUNITY] ->
     session_state (after (set_session_state_variables PromptKeys) (after update w)) !! k
     = session_state (after update w) !! k)
  /\ ((forall k, In k (fixed_keys PromptKeys) -> is_Some (session_state w !! k)) ->
      set_session_state_variables PromptKeys (after update w) = (Ok tt, after update w)).
Proof.
  intros update. subst update. unfold returned, after.
  rewrite update_session_state_run, !set_session_state_variables_spec.
  destruct (if initial_setting then _ else _) as [[[a b] c]|x]; [|discriminate].
  intros _. cbn [fst snd]. split.
  - intros k Hk. destruct w as [ss ? ? ? ? ? ?]. cbn. rewrite foldl_init_pure_lookup.
    assert (is_Some ((<[COMMUNITY := c]> (<[ENTITY := b]> (<[SUMMARY := a]> ss))) !! k))
      as [v ->]; [|reflexivity].
    rewrite !lookup_insert_is_Some'. simpl in Hk. intuition.
  - intros Hpresent. f_equal. destruct w as [ss ? ? ? ? ? ?]. cbn in *.
    unfold set_session_state. cbn. f_equal. apply foldl_init_pure_present.
    intros k Hk. rewrite !lookup_insert_is_Some'. auto.
Qed.

Lemma initialisation_keeps_update_witness :
  session_state
    (after (set_session_state_variables ["summary"; "entity"; "community"])
       (after (update_session_state_prompt_vars "summary" "entity" "community"
                 (Some "s") None (Some "c") false "./prompts") world0))
    !! "entity" = Some PNone.
Proof.
  rewrite (proj1 (initialisation_keeps_update ["summary"; "entity"; "community"]
                    "summary" "entity" "community" (Some "s") None (Some "c") false
                    "./prompts" world0 eq_refl) "entity");
    [reflexivity | simpl; tauto].
Defined.

(** ** The diagnostics of the option builders *)

(** X17. The option builders print a diagnostic exactly when the lookup or
    the concatenation fails, and it names the exception: [KeyError] for a
    response without the key, [TypeError] for the [None] of a failed listing
    and for any other value that is no dict, or whose entry is no list. A
    well-formed listing, the empty one included, prints nothing. Nothing but
    the standard output is touched. *)
Theorem option_builders_diagnostic (v : pyval) (self : IndexPipeline.t) (w : world) :
  (forall e, lookup_error v "index_name" = Some e ->
     show_index_options v w
     = (Ok [PStr ""], set_stdout (fun l => l ++ [no_indexes_message e]) w))
  /\ (lookup_error v "index_name" = None -> after (show_index_options v) w = w)
  /\ (forall e, lookup_error (IndexPipeline.containers self) "storage_name" = Some e ->
        IndexPipeline._parse_container_names self w
        = (Ok [PStr ""], set_stdout (fun l => l ++ [no_containers_message e]) w))
  /\ (lookup_error (IndexPipeline.containers self) "storage_name" = None ->
      after (IndexPipeline._parse_container_names self) w = w).
Proof.
  unfold show_index_options, IndexPipeline._parse_container_names, after, lookup_error.
  unfold try_except, mbind, M_bind, lift, getitem.
  repeat split.
  - intros e He. destruct v as [| | | | | |d]; try (inversion He; subst; reflexivity).
    destruct (dict_get "index_name" d) as [[]|]; inversion He; subst; reflexivity.
  - intros He. destruct v as [| | | | | |d]; try discriminate.
    destruct (dict_get "index_name" d) as [[]|]; try discriminate. reflexivity.
  - intros e He. destruct (IndexPipeline.containers self) as [| | | | | |d];
      try (inversion He; subst; reflexivity).
    destruct (dict_get "storage_name" d) as [[]|]; inversion He; subst; reflexivity.
  - intros He. destruct (IndexPipeline.containers self) as [| | | | | |d];
      try discriminate.
    destruct (dict_get "storage_name" d) as [[]|]; try discriminate. reflexivity.
Qed.

Lemma option_builders_diagnostic_witness :
  show_index_options PNone world0
  = (Ok [PStr ""], set_stdout (fun l => l ++ [no_indexes_message TypeError]) world0)
  /\ after (show_index_options (PDict [("index_name", PList [])])) world0 = world0
  /\ IndexPipeline._parse_container_names
       (IndexPipeline.Build (PDict [("detail", PStr "no such route")]) "http://api" [] [])
       world0
     = (Ok [PStr ""],
        set_stdout (fun l => l ++ [no_containers_message (KeyError "storage_name")]) world0).
Proof.
  split; [|split].
  - apply (proj1 (option_builders_diagnostic PNone
                    (IndexPipeline.Build PNone "" [] []) world0) TypeError).
    reflexivity.
  - apply (proj1 (proj2 (option_builders_diagnostic (PDict [("index_name", PList [])])
                    (IndexPipeline.Build PNone "" [] []) world0))).
    reflexivity.
  - apply (proj1 (proj2 (proj2 (option_builders_diagnostic PNone
                    (IndexPipeline.Build (PDict [("detail", PStr "no such route")])
                       "http://api" [] []) world0)))
             (KeyError "storage_name")).
    reflexivity.
Defined.

(** ** The prompt-generation step *)

Lemma keeps_session_bind {A B} (m : M A) (k : A -> M B) :
  keeps_session m -> (forall a, keeps_session (k a)) -> keeps_session (m ≫= k).
Proof.
  intros Hm Hk w. unfold mbind, M_bind. specialize (Hm w).
  destruct (m w) as [[a|e] w']; simpl in *; [|exact Hm].
  by rewrite Hk.
Qed.

Lemma keeps_session_for_each {A} (l : list A) (body : A -> M unit) :
  (forall a, keeps_session (body a)) -> keeps_session (for_each l body).
Proof.
  intros Hbody. induction l as [|x l IH]; simpl; [by intros w|].
  apply keeps_session_bind; [apply Hbody | intros _; exact IH].
Qed.

Lemma keeps_session_fs_update (f : FS.node -> result FS.node) :
  keeps_session (fs_update f).
Proof. intros w. unfold fs_update. by destruct (f (fs w)). Qed.

Lemma keeps_session_generate_and_extract
  (zip_decode : string -> option (list (string * member_data)))
  (api_url : string) (hdrs : headers) (storage_name zip_file_name : string) (limit : Z) :
  keeps_session (generate_and_extract_prompts zip_decode api_url hdrs storage_name
                   zip_file_name limit).
Proof.
  unfold generate_and_extract_prompts, _generate_prompts, _extract_prompts_from_zip.
  cbv zeta.
  repeat first
    [ apply keeps_session_bind; [|intros ?]
    | apply keeps_session_for_each; intros ?
    | apply keeps_session_fs_update ];
    try (intros w; reflexivity).
  - intros w. unfold requests_get, requests_send. by destruct (net w (sent w) _).
  - intros w. unfold raise_for_status. by destruct (_ && _).
  - by destruct (stream_error _); intros w.
  - destruct (zip_decode _); [|by intros w].
    apply keeps_session_for_each. intros m. unfold extract_member. cbv zeta.
    apply keeps_session_bind; [apply keeps_session_fs_update|]. intros _.
    destruct (endswith _ _); [apply keeps_session_fs_update|].
    destruct (snd m) as [d|d e|e]; [apply keeps_session_fs_update | | by intros w].
    apply keeps_session_bind; [apply keeps_session_fs_update | by intros _ w].
Qed.

Lemma parse_container_names_frame (self : IndexPipeline.t) (w : world) :
  exists l,
    returned (IndexPipeline._parse_container_names self) w = Ok l
    /\ session_state (after (IndexPipeline._parse_container_names self) w)
       = session_state w.
Proof.
  unfold returned, after, IndexPipeline._parse_container_names.
  unfold try_except, mbind, M_bind, lift.
  destruct (getitem _ _) as [x|e]; [destruct (list_add _ x)|]; simpl; eauto.
Qed.

Section PromptConfigStepProperties.

Variable zip_decode : string -> option (list (string * member_data)).
Variable PromptKeys : list string.
Variables SUMMARY ENTITY COMMUNITY : string.
Variable prompt_expander_ : M unit.
Variable self : IndexPipeline.t.
Variable select_storage_name2 : string.

Local Abbreviation step :=
  (prompt_config_step zip_decode PromptKeys SUMMARY ENTITY COMMUNITY prompt_expander_
     self select_storage_name2).
Local Abbreviation generate :=
  (generate_and_extract_prompts zip_decode (IndexPipeline.api_url self)
     (IndexPipeline.headers_ self) select_storage_name2 "prompts.zip" 5).
Local Abbreviation parsed w := (after (IndexPipeline._parse_container_names self) w).

Lemma prompt_config_step_run (w : world) :
  step true w
  = match generate (parsed w) with
    | (Ok _, w2) =>
        match update_session_state_prompt_vars SUMMARY ENTITY COMMUNITY
                None None None true "./prompts" w2 with
        | (Ok _, w3) =>
            match comprehension session_get PromptKeys w3 with
            | (Ok prompt_values, w4) =>
                if existsb truthy prompt_values then prompt_expander_ w4 else (Ok tt, w4)
            | (Raise x, w4) => (Raise x, w4)
            end
        | (Raise x, w3) => (Raise x, w3)
        end
    | (Raise x, w2) => (Raise x, w2)
    end.
Proof.
  destruct (parse_container_names_frame self w) as (l & Hl & _).
  unfold prompt_config_step, after, returned in *.
  unfold mbind at 1, M_bind at 1.
  destruct (IndexPipeline._parse_container_names self w) as [r w1].
  simpl in Hl. subst r. cbn [snd]. unfold mbind, M_bind.
  destruct (generate_and_extract_prompts _ _ _ _ _ _ w1) as [[[]|x] w2]; [|reflexivity].
  destruct (update_session_state_prompt_vars _ _ _ _ _ _ _ _ w2) as [[[]|x] w3];
    [|reflexivity].
  destruct (comprehension session_get PromptKeys w3) as [[vals|x] w4]; [|reflexivity].
  destruct (existsb truthy vals); reflexivity.
Qed.

Lemma comprehension_session_get (l : list string) (w : world) :
  (forall k, In k l -> is_Some (session_state w !! k)) ->
  comprehension session_get l w
  = (Ok (map (fun k => default PNone (session_state w !! k)) l), w).
Proof.
  induction l as [|k l IH]; intros H; [reflexivity|].
  rewrite comprehension_cons. unfold session_get at 1.
  destruct (H k (or_introl eq_refl)) as [v Hv]. rewrite Hv.
  rewrite IH by (intros k' Hk'; apply H; by right).
  cbn [map]. by rewrite Hv.
Qed.

(** X18. The prompt-generation step replaces the prompts of the session
    only when download, extraction and loading have all succeeded. When the
    button was not pressed nothing is requested or stored. When the download
    or the extraction raises, and when loading the prompts raises, the step
    raises the same error, the prompt expander is not run and the session
    state is as it was. *)
Theorem prompt_config_step_keeps_session_on_failure (w : world) :
  step false w = (Ok tt, parsed w)
  /\ (forall x w2, generate (parsed w) = (Raise x, w2) ->
        step true w = (Raise x, w2) /\ session_state w2 = session_state w)
  /\ (forall x w2, generate (parsed w) = (Ok tt, w2) ->
        returned (get_prompts "./prompts") w2 = Raise x ->
        step true w = (Raise x, w2) /\ session_state w2 = session_state w).
Proof.
  destruct (parse_container_names_frame self w) as (l & Hl & Hss).
  assert (Hkeep : forall r w2, generate (parsed w) = (r, w2) ->
                    session_state w2 = session_state w).
  { intros r w2 H. rewrite <- Hss.
    change w2 with (snd (r, w2)). rewrite <- H.
    apply keeps_session_generate_and_extract. }
  split; [|split].
  - unfold prompt_config_step, after, returned in *.
    unfold mbind, M_bind.
    destruct (IndexPipeline._parse_container_names self w) as [r w1].
    simpl in Hl. by subst r.
  - intros x w2 H. rewrite prompt_config_step_run, H.
    split; [reflexivity | by apply Hkeep with (Raise x)].
  - intros x w2 H Hload. rewrite prompt_config_step_run, H.
    rewrite update_session_state_run, Hload.
    split; [reflexivity | by apply Hkeep with (Ok tt)].
Qed.

(** X19. When download and extraction succeed and the three prompts load,
    the step stores them in the session, and then runs the prompt expander
    if and only if one of them is not empty. The keys of the enumeration
    are the three prompt keys, and these are distinct. *)
Theorem prompt_config_step_stores_and_expands (s e c : string) (w w2 : world) :
  generate (parsed w) = (Ok tt, w2) ->
  returned (get_prompts "./prompts") w2 = Ok (s, e, c) ->
  NoDup [SUMMARY; ENTITY; COMMUNITY] ->
  (forall k, In k PromptKeys <-> In k [SUMMARY; ENTITY; COMMUNITY]) ->
  (s = "" -> e = "" -> c = "" ->
   step true w = (Ok tt, with_prompts SUMMARY ENTITY COMMUNITY s e c w2))
  /\ (s <> "" \/ e <> "" \/ c <> "" ->
      step true w = prompt_expander_ (with_prompts SUMMARY ENTITY COMMUNITY s e c w2)).
Proof.
  intros Hgen Hload Hnd Hkeys.
  apply NoDup_cons in Hnd as [H1 H2]. apply NoDup_cons in H2 as [H2 _].
  assert (HES : ENTITY <> SUMMARY) by (intros <-; apply H1; constructor).
  assert (HCS : COMMUNITY <> SUMMARY) by (intros <-; apply H1; do 2 constructor).
  assert (HCE : COMMUNITY <> ENTITY) by (intros <-; apply H2; constructor).
  set (w3 := with_prompts SUMMARY ENTITY COMMUNITY s e c w2).
  assert (HS : session_state w3 !! SUMMARY = Some (PStr s)).
  { unfold w3, with_prompts. destruct w2; cbn.
    rewrite !lookup_insert_ne by assumption. apply lookup_insert_eq. }
  assert (HE : session_state w3 !! ENTITY = Some (PStr e)).
  { unfold w3, with_prompts. destruct w2; cbn.
    rewrite lookup_insert_ne by assumption. apply lookup_insert_eq. }
  assert (HC : session_state w3 !! COMMUNITY = Some (PStr c)).
  { unfold w3, with_prompts. destruct w2; cbn. apply lookup_insert_eq. }
  assert (Hrun : step true w
                 = if existsb truthy
                        (map (fun k => default PNone (session_state w3 !! k)) PromptKeys)
                   then prompt_expander_ w3 else (Ok tt, w3)).
  { rewrite prompt_config_step_run, Hgen, update_session_state_run, Hload.
    fold (with_prompts SUMMARY ENTITY COMMUNITY s e c w2). fold w3.
    rewrite comprehension_session_get; [reflexivity|].
    intros k Hk. apply Hkeys in Hk. simpl in Hk.
    destruct Hk as [<- | [<- | [<- | []]]]; eauto. }
  rewrite Hrun. split.
  - intros -> -> ->.
    assert (existsb truthy
              (map (fun k => default PNone (session_state w3 !! k)) PromptKeys) = false)
      as ->; [|reflexivity].
    apply not_true_is_false. intros H. apply existsb_exists in H as (v & Hv & Ht).
    apply in_map_iff in Hv as (k & <- & Hk). apply Hkeys in Hk. simpl in Hk.
    destruct Hk as [<- | [<- | [<- | []]]];
      rewrite ?HS, ?HE, ?HC in Ht; discriminate.
  - intros Hsome.
    assert (existsb truthy
              (map (fun k => default PNone (session_state w3 !! k)) PromptKeys) = true)
      as ->; [|reflexivity].
    apply existsb_exists.
    assert (Htruthy : forall t, t <> "" -> truthy (PStr t) = true).
    { intros t Ht. simpl. destruct (String.eqb t "") eqn:E; [|reflexivity].
      apply String.eqb_eq in E. contradiction. }
    destruct Hsome as [Hs | [He | Hc]].
    + exists (PStr s). split; [|by apply Htruthy].
      apply in_map_iff. exists SUMMARY. rewrite HS. split; [reflexivity|].
      apply Hkeys. simpl. tauto.
    + exists (PStr e). split; [|by apply Htruthy].
      apply in_map_iff. exists ENTITY. rewrite HE. split; [reflexivity|].
      apply Hkeys. simpl. tauto.
    + exists (PStr c). split; [|by apply Htruthy].
      apply in_map_iff. exists COMMUNITY. rewrite HC. split; [reflexivity|].
      apply Hkeys. simpl. tauto.
Qed.

End PromptConfigStepProperties.

Lemma prompt_config_step_keeps_session_on_failure_witness :
  prompt_config_step sample_decode ["entity"; "summary"; "community"]
    "summary" "entity" "community" sample_expander sample_pipeline "store" true world0
  = (Raise (RequestException "connection refused"),
     after (generate_and_extract_prompts sample_decode "http://api" [] "store"
              "prompts.zip" 5) world0)
  /\ session_state
       (after (generate_and_extract_prompts sample_decode "http://api" [] "store"
                 "prompts.zip" 5) world0)
     = session_state world0.
Proof.
  apply (proj1 (proj2 (prompt_config_step_keeps_session_on_failure sample_decode
           ["entity"; "summary"; "community"] "summary" "entity" "community"
           sample_expander sample_pipeline "store" world0))
           (RequestException "connection refused")).
  reflexivity.
Defined.

Lemma prompt_config_step_stores_and_expands_witness :
  prompt_config_step sample_decode ["entity"; "summary"; "community"]
    "summary" "entity" "community" sample_expander sample_pipeline "store" true
    streaming_world
  = sample_expander
      (with_prompts "summary" "entity" "community" "summaries" "entities" "communities"
         (after (generate_and_extract_prompts sample_decode "http://api" [] "store"
                   "prompts.zip" 5) streaming_world)).
Proof.
  refine (proj2 (prompt_config_step_stores_and_expands sample_decode
           ["entity"; "summary"; "community"] "summary" "entity" "community"
           sample_expander sample_pipeline "store"
           "summaries" "entities" "communities" streaming_world
           (after (generate_and_extract_prompts sample_decode "http://api" [] "store"
                     "prompts.zip" 5) streaming_world)
           _ _ _ _) _).
  - vm_compute. reflexivity.
  - vm_compute. reflexivity.
  - apply (bool_decide_unpack _). vm_compute. exact I.
  - intros k. simpl. tauto.
  - left. discriminate.
Defined.

(** ** The smoke test *)

(** X20. The smoke test sends one request, the GET of [{endpoint}/data]
    with the subscription key in its header, and checks no status: it prints
    the status, whatever it is, and then the parsed body. A transport
    failure is raised with nothing printed, and a body that does not parse
    is raised after the status was printed. *)
Theorem apim_main_prints_status_then_body (key : string) (w : world) :
  let rq := Request GET "https://apim-6b7pszrzqfrdm.azure-api.net/data" []
              [("Ocp-Apim-Subscription-Key", key)] None None false in
  sent (after (APIM.main key) w) = sent w ++ [rq]
  /\ (forall x, net w (sent w) rq = Fails x ->
        returned (APIM.main key) w = Raise x
        /\ stdout (after (APIM.main key) w) = stdout w)
  /\ (forall r x, net w (sent w) rq = Responds r -> json_ r = Raise x ->
        returned (APIM.main key) w = Raise x
        /\ stdout (after (APIM.main key) w) = stdout w ++ [[FInt (status_code r)]])
  /\ (forall r v, net w (sent w) rq = Responds r -> json_ r = Ok v ->
        returned (APIM.main key) w = Ok tt
        /\ stdout (after (APIM.main key) w)
           = stdout w ++ [[FInt (status_code r)]; [FVal v]]).
Proof.
  intros rq. unfold APIM.main, APIM.headers, APIM.endpoint, requests_get.
  change (Request GET _ _ _ _ _ _) with rq.
  unfold returned, after, mbind, M_bind, requests_send, print, lift.
  destruct (net w (sent w) rq) as [r|x].
  - split; [destruct (json_ r); reflexivity|].
    split; [discriminate|]. split.
    + intros r' x Hr Hj. inversion Hr; subst. rewrite Hj. by split.
    + intros r' v Hr Hj. inversion Hr; subst. rewrite Hj. simpl.
      split; [reflexivity | by rewrite <- app_assoc].
  - split; [reflexivity|]. split; [|split; discriminate].
    intros x' Hx. inversion Hx; subst. by split.
Qed.

Lemma apim_main_prints_status_then_body_witness :
  returned (APIM.main "key") (set_net (always server_error) world0) = Ok tt
  /\ stdout (after (APIM.main "key") (set_net (always server_error) world0))
     = [] ++ [[FInt 500]; [FVal (PDict [("detail", PStr "internal error")])]].
Proof.
  apply (proj2 (proj2 (proj2 (apim_main_prints_status_then_body "key"
           (set_net (always server_error) world0)))) server_error); reflexivity.
Defined.
